(** * roma-blackbox: the request-monitoring wrapper

    A shallow embedding of [roma_blackbox/wrapper.py] (class
    [BlackBoxWrapper] and the record [BlackBoxResult]) together with the
    properties its specification states about it.

    Layout:
    - [Sha256]      : [hashlib.sha256(...).hexdigest()] on byte strings;
    - [Py]          : the fragment of Python values, dictionaries and
                      exceptions the wrapper manipulates;
    - [Float64]     : the floating-point arithmetic of the latency;
    - [Redaction]   : the pattern-driven redaction engine, which lives in
                      [pii_patterns.py] and is described only by the
                      specification;
    - [Collaborators] : [BlackBoxWrapper.run] and its helpers as a state
                      and exception monad over the collaborators' world,
                      which also lists the calls made on them;
    - [Exits]       : what a run computes and the points where it can end;
    - [Demo]        : concrete collaborators, to run the wrapper;
    - the theorems, one per documented property. *)

From stdpp Require Import base gmap sets strings.
From Stdlib Require Import Ascii String DecimalString ZArith QArith Lia Bool List.
Import ListNotations.
Local Open Scope Z_scope.

(* ===================================================================== *)
(** ** SHA-256 (FIPS 180-4), as used by [hashlib.sha256] *)
(* ===================================================================== *)

Module Sha256.

(** 32-bit words are integers taken modulo [2^32]. *)
Definition w32 (x : Z) : Z := x mod 4294967296.
Definition add32 (x y : Z) : Z := w32 (x + y).
Definition rotr (n x : Z) : Z :=
  Z.lor (Z.shiftr x n) (w32 (Z.shiftl x (32 - n))).
Definition not32 (x : Z) : Z := 4294967295 - x.

Definition Ch (x y z : Z) : Z := Z.lxor (Z.land x y) (Z.land (not32 x) z).
Definition Maj (x y z : Z) : Z :=
  Z.lxor (Z.lxor (Z.land x y) (Z.land x z)) (Z.land y z).
Definition Sigma0 (x : Z) : Z :=
  Z.lxor (Z.lxor (rotr 2 x) (rotr 13 x)) (rotr 22 x).
Definition Sigma1 (x : Z) : Z :=
  Z.lxor (Z.lxor (rotr 6 x) (rotr 11 x)) (rotr 25 x).
Definition sigma0 (x : Z) : Z :=
  Z.lxor (Z.lxor (rotr 7 x) (rotr 18 x)) (Z.shiftr x 3).
Definition sigma1 (x : Z) : Z :=
  Z.lxor (Z.lxor (rotr 17 x) (rotr 19 x)) (Z.shiftr x 10).

(** The constants of the standard are fractional parts of roots of the
    first primes, 32 bits of each. *)
Definition is_prime (n : nat) : bool :=
  forallb (fun d => negb (n mod d =? 0)%nat) (seq 2 (n - 2)).

Definition primes (n : nat) : list Z :=
  map Z.of_nat (firstn n (filter is_prime (seq 2 310))).

(** The integer cube root of a number below [2^108], bit by bit. *)
Definition cube_root (n : Z) : Z :=
  fold_left
    (fun r i => let c := r + Z.shiftl 1 (Z.of_nat i) in
                if c * c * c <=? n then c else r)
    (rev (seq 0 36)) 0.

(** The round constants: the cube roots of the first 64 primes. *)
Definition K : list Z :=
  Eval vm_compute in
    map (fun p => cube_root (Z.shiftl p 96) mod 4294967296) (primes 64).

(** The chaining value: eight 32-bit words. *)
Record state := mkState
  { ha : Z; hb : Z; hc : Z; hd : Z; he : Z; hf : Z; hg : Z; hh : Z }.

(** The initial chaining value: the square roots of the first 8 primes. *)
Definition initial_words : list Z :=
  Eval vm_compute in
    map (fun p => Z.sqrt (Z.shiftl p 64) mod 4294967296) (primes 8).

Definition H0 : state :=
  mkState (nth 0 initial_words 0) (nth 1 initial_words 0)
          (nth 2 initial_words 0) (nth 3 initial_words 0)
          (nth 4 initial_words 0) (nth 5 initial_words 0)
          (nth 6 initial_words 0) (nth 7 initial_words 0).

(** Padding: one [0x80] byte, zero bytes up to 56 modulo 64, then the
    message length in bits as a 64-bit big-endian integer. *)
Definition be_bytes (n : nat) (x : Z) : list Z :=
  map (fun i => Z.shiftr x (8 * Z.of_nat i) mod 256) (rev (seq 0 n)).

Definition pad (msg : list Z) : list Z :=
  let len := Z.of_nat (length msg) in
  let zeros := Z.to_nat ((55 - len) mod 64) in
  msg ++ [128] ++ repeat 0 zeros ++ be_bytes 8 (8 * len).

Fixpoint be_word (bs : list Z) (acc : Z) : Z :=
  match bs with
  | [] => acc
  | b :: bs' => be_word bs' (acc * 256 + b)
  end.

(** [words n bs] reads [n] big-endian 32-bit words off the front of [bs]. *)
Fixpoint words (n : nat) (bs : list Z) : list Z :=
  match n with
  | O => []
  | S n' => be_word (firstn 4 bs) 0 :: words n' (skipn 4 bs)
  end.

(** The message schedule is kept most-recent-first: the head of [w] is
    [W(t-1)], so [W(t-2)], [W(t-7)], [W(t-15)] and [W(t-16)] sit at
    indices 1, 6, 14 and 15. *)
Definition next_w (w : list Z) : Z :=
  add32 (add32 (sigma1 (nth 1 w 0)) (nth 6 w 0))
        (add32 (sigma0 (nth 14 w 0)) (nth 15 w 0)).

Fixpoint extend (n : nat) (w : list Z) : list Z :=
  match n with
  | O => w
  | S n' => extend n' (next_w w :: w)
  end.

Definition schedule (block : list Z) : list Z :=
  rev (extend 48 (rev (words 16 block))).

Definition round (s : state) (kw : Z * Z) : state :=
  let '(k, w) := kw in
  let t1 := add32 (add32 (add32 (hh s) (Sigma1 (he s)))
                         (add32 (Ch (he s) (hf s) (hg s)) k)) w in
  let t2 := add32 (Sigma0 (ha s)) (Maj (ha s) (hb s) (hc s)) in
  mkState (add32 t1 t2) (ha s) (hb s) (hc s)
          (add32 (hd s) t1) (he s) (hf s) (hg s).

Definition compress (s : state) (block : list Z) : state :=
  let r := fold_left round (combine K (schedule block)) s in
  mkState (add32 (ha s) (ha r)) (add32 (hb s) (hb r))
          (add32 (hc s) (hc r)) (add32 (hd s) (hd r))
          (add32 (he s) (he r)) (add32 (hf s) (hf r))
          (add32 (hg s) (hg r)) (add32 (hh s) (hh r)).

Fixpoint blocks (n : nat) (bs : list Z) (s : state) : state :=
  match n with
  | O => s
  | S n' => blocks n' (skipn 64 bs) (compress s (firstn 64 bs))
  end.

Definition digest (msg : list Z) : state :=
  let p := pad msg in
  blocks (length p / 64)%nat p H0.

(** Lower-case hexadecimal rendering, as [hexdigest] prints it. *)
Definition hex_digit (n : Z) : ascii :=
  match n mod 16 with
  | 0 => "0" | 1 => "1" | 2 => "2" | 3 => "3"
  | 4 => "4" | 5 => "5" | 6 => "6" | 7 => "7"
  | 8 => "8" | 9 => "9" | 10 => "a" | 11 => "b"
  | 12 => "c" | 13 => "d" | 14 => "e" | _ => "f"
  end%char.

Definition hex_word (x : Z) : list ascii :=
  [ hex_digit (Z.shiftr x 28); hex_digit (Z.shiftr x 24);
    hex_digit (Z.shiftr x 20); hex_digit (Z.shiftr x 16);
    hex_digit (Z.shiftr x 12); hex_digit (Z.shiftr x 8);
    hex_digit (Z.shiftr x 4);  hex_digit x ].

Definition hex_state (s : state) : list ascii :=
  hex_word (ha s) ++ hex_word (hb s) ++ hex_word (hc s) ++ hex_word (hd s)
  ++ hex_word (he s) ++ hex_word (hf s) ++ hex_word (hg s) ++ hex_word (hh s).

Definition bytes_of_string (s : string) : list Z :=
  map (fun c => Z.of_N (N_of_ascii c)) (list_ascii_of_string s).

(** [hashlib.sha256(b).hexdigest()] for the byte string [b]. *)
Definition hexdigest (b : string) : string :=
  string_of_list_ascii (hex_state (digest (bytes_of_string b))).

(** A character that may occur in a lower-case hexadecimal numeral. *)
Definition is_hex (c : ascii) : bool :=
  let n := N_of_ascii c in
  ((48 <=? n) && (n <=? 57) || (97 <=? n) && (n <=? 102))%N.

End Sha256.

(* ===================================================================== *)
(** ** The fragment of Python the wrapper manipulates *)
(* ===================================================================== *)

Module Py.

(** Python objects that travel through the wrapper: task payloads, agent
    responses, outcome records and attestations.  A [str] is kept as the
    byte string of its UTF-8 encoding, so that [s.encode()] is the
    identity; a text that has no UTF-8 encoding (one with a lone
    surrogate, on which [encode] raises) is not among these values.  A
    [float] is kept as the rational it denotes.  A [dict] keeps its
    entries in insertion order. *)
#[local] Set Warnings "-register-all".
Inductive value : Type :=
| VNone
| VBool (b : bool)
| VInt (n : Z)
| VFloat (q : Q)
| VStr (s : string)
| VList (items : list value)
| VDict (entries : list (value * value)).

(** Structural induction that also descends into list items and
    dictionary values. *)
Section value_rect_nested.
Variable P : value -> Prop.
Hypothesis HNone : P VNone.
Hypothesis HBool : forall b, P (VBool b).
Hypothesis HInt : forall n, P (VInt n).
Hypothesis HFloat : forall q, P (VFloat q).
Hypothesis HStr : forall s, P (VStr s).
Hypothesis HList : forall l, Forall P l -> P (VList l).
Hypothesis HDict :
  forall d, Forall (fun kv => P (snd kv)) d -> P (VDict d).

Fixpoint value_ind_nested (v : value) : P v :=
  match v with
  | VNone => HNone
  | VBool b => HBool b
  | VInt n => HInt n
  | VFloat q => HFloat q
  | VStr s => HStr s
  | VList l =>
      HList l
        ((fix items (l : list value) : Forall P l :=
            match l with
            | [] => @List.Forall_nil _ _
            | x :: l' =>
                @List.Forall_cons _ _ x l' (value_ind_nested x) (items l')
            end) l)
  | VDict d =>
      HDict d
        ((fix entries (d : list (value * value))
            : Forall (fun kv => P (snd kv)) d :=
            match d with
            | [] => @List.Forall_nil _ _
            | kv :: d' =>
                @List.Forall_cons _ _ kv d'
                  (value_ind_nested (snd kv)) (entries d')
            end) d)
  end.
End value_rect_nested.

Definition dict := list (value * value).

(** [d.get(k)] for a string key [k]: the value of the first entry whose
    key is the string [k]. *)
Fixpoint dict_lookup (d : dict) (k : string) : option value :=
  match d with
  | [] => None
  | (VStr k', v) :: d' => if String.eqb k' k then Some v else dict_lookup d' k
  | _ :: d' => dict_lookup d' k
  end.

(** [d.get(k, default)]. *)
Definition dict_get (d : dict) (k : string) (default : value) : value :=
  match dict_lookup d k with
  | Some v => v
  | None => default
  end.

(** [d[k] = v] on a copy of [d]: an existing key keeps its position, a new
    key goes last. *)
Fixpoint dict_set (d : dict) (k : string) (v : value) : dict :=
  match d with
  | [] => [(VStr k, v)]
  | (VStr k', v') :: d' =>
      if String.eqb k' k then (VStr k', v) :: d'
      else (VStr k', v') :: dict_set d' k v
  | kv :: d' => kv :: dict_set d' k v
  end.

(** Exception classes, as far as the wrapper's [except] clauses tell them
    apart. [ExcBase] stands for the [BaseException] subclasses outside
    [Exception] ([KeyboardInterrupt], [asyncio.CancelledError], ...). *)
Inductive exc_class := ExcTypeError | ExcAttributeError | ExcOther | ExcBase.

(** A raised exception: its class and [str(e)]. *)
Record exn := mkExn { exc_cls : exc_class; exc_str : string }.

Definition is_Exception (e : exn) : bool :=
  match exc_cls e with ExcBase => false | _ => true end.

Definition is_TypeError (e : exn) : bool :=
  match exc_cls e with ExcTypeError => true | _ => false end.

(** The outcome of evaluating an expression or running a statement. *)
Inductive outcome (A : Type) : Type :=
| Ret (a : A)
| Raise (e : exn).
Arguments Ret {A} a.
Arguments Raise {A} e.

(** The keyword arguments [**d] contributes to a call: every key must be a
    string. *)
Fixpoint keywords (d : dict) : option (list (string * value)) :=
  match d with
  | [] => Some []
  | (VStr k, v) :: d' =>
      match keywords d' with
      | Some kw => Some ((k, v) :: kw)
      | None => None
      end
  | _ :: _ => None
  end.

Definition has_key (kw : list (string * value)) (k : string) : bool :=
  existsb (fun e => String.eqb (fst e) k) kw.

(** The keyword arguments of a call [f(x, **d, **kw)]; [None] when the call
    itself raises [TypeError] (a key that is no string, or a keyword
    given twice). *)
Definition call_keywords (d : dict) (kw : list (string * value))
  : option (list (string * value)) :=
  match keywords d with
  | Some kd =>
      if existsb (fun e => has_key kw (fst e)) kd then None
      else Some (kd ++ kw)
  | None => None
  end.

(** [type(a).__name__] *)
Definition type_name (a : value) : string :=
  match a with
  | VNone => "NoneType"
  | VBool _ => "bool"
  | VInt _ => "int"
  | VFloat _ => "float"
  | VStr _ => "str"
  | VList _ => "list"
  | VDict _ => "dict"
  end.

(** [a[k] = v] for a string [k]: a dictionary is updated; a list wants an
    integer or a slice; the other objects have no item assignment.  The
    [TypeError]s carry CPython's messages. *)
Definition setitem (a : value) (k : string) (v : value) : outcome value :=
  match a with
  | VDict d => Ret (VDict (dict_set d k v))
  | VList _ =>
      Raise (mkExn ExcTypeError
               "list indices must be integers or slices, not str")
  | _ =>
      Raise (mkExn ExcTypeError
               ("'" ++ type_name a
                ++ "' object does not support item assignment"))
  end.

(** [int(x)] for a finite [float] [x]: truncation towards zero. *)
Definition int_of_Q (x : Q) : Z := Z.quot (Qnum x) (Zpos (Qden x)).

End Py.
Export Py.

(* ===================================================================== *)
(** ** Floating-point numbers *)
(* ===================================================================== *)

Module Float64.

(** A Python [float] is a binary64 number; a finite one is kept as the
    rational it denotes.  An operation is the exact operation followed by
    the rounding to the nearest number with a 53-bit significand, ties to
    the even significand.  The exponent is not bounded here: the clock
    readings below and what is computed from them lie between [2^-82] and
    [2^74] in magnitude or are zero, far from binary64's limits. *)

(** [n / d] rounded to the nearest integer, ties to even, for [0 <= n] and
    [0 < d]. *)
Definition round_half_even (n d : Z) : Z :=
  let q := n / d in
  match 2 * (n mod d) ?= d with
  | Lt => q
  | Gt => q + 1
  | Eq => if Z.even q then q else q + 1
  end.

(** The integer part of the binary logarithm of [n / d], for [0 < n] and
    [0 < d]. *)
Definition ilog2 (n d : Z) : Z :=
  let k := Z.log2 n - Z.log2 d in
  if (if 0 <=? k then d * 2 ^ k <=? n else d <=? n * 2 ^ (- k))
  then k else k - 1.

(** Rounding to 53 significant bits. *)
Definition round53 (x : Q) : Q :=
  let n := Qnum x in
  let d := Zpos (Qden x) in
  if n =? 0 then 0%Q
  else
    let a := Z.abs n in
    let e := ilog2 a d - 52 in
    let m := if 0 <=? e then round_half_even a (d * 2 ^ e)
             else round_half_even (a * 2 ^ (- e)) d in
    let v := if 0 <=? e then inject_Z (m * 2 ^ e)
             else Qmake m (Z.to_pos (2 ^ (- e))) in
    Qred (if n <? 0 then Qopp v else v).

Definition sub (x y : Q) : Q := round53 (x - y).
Definition mul (x y : Q) : Q := round53 (x * y).
Definition div (x y : Q) : Q := round53 (x / y).

(** [(double) n] *)
Definition of_Z (n : Z) : Q := round53 (inject_Z n).

End Float64.

(** What [time.time()] makes of the system clock.  CPython reads the clock
    as a signed 64-bit count [t] of nanoseconds and returns it in seconds:
    [(double) (t / 10^9)] when [t] is a whole number of seconds, and
    [(double) t / 1e9] otherwise. *)
Definition as_seconds_double (t : Z) : Q :=
  if Z.rem t 1000000000 =? 0 then Float64.of_Z (Z.quot t 1000000000)
  else Float64.div (Float64.of_Z t) 1000000000.

(** A count of nanoseconds kept within 64 bits. *)
Definition saturate (t : Z) : Z := Z.max (- 2 ^ 63) (Z.min (2 ^ 63 - 1) t).

(* ===================================================================== *)
(** ** The redaction engine *)
(* ===================================================================== *)

Module Redaction.

(** Modelled from the spec: the PII catalogue and the [redact] operation
    of the redaction engine ([roma_blackbox/pii_patterns.py] and
    [roma_blackbox/filters.py] are not part of the sources at hand).  The
    catalogue is an ordered list of (type name, detection rule) pairs; a
    detection rule looks at the text that starts at the current position
    and answers with the length of the match that starts there, if any. *)
Record rule := mkRule
  { pii_type : string;
    detect : string -> option nat }.

Definition catalogue := list rule.

(** Modelled from the spec: the fixed marker token of a PII type, such as
    [[EMAIL_REDACTED]]. *)
Definition marker (r : rule) : string :=
  ("[" ++ pii_type r ++ "_REDACTED]")%string.

(** Modelled from the spec: one rule's pass over a text.  Every match is
    replaced by the marker, and the scan resumes behind the match: the
    rule never looks again at text it has replaced.  [skip] counts the
    characters of the current match still to be dropped. *)
Fixpoint sub_from (r : rule) (skip : nat) (s : string) : string :=
  match s with
  | EmptyString => EmptyString
  | String c s' =>
      match skip with
      | S k => sub_from r k s'
      | O =>
          match detect r s with
          | Some (S n) => (marker r ++ sub_from r n s')%string
          | _ => String c (sub_from r 0 s')
          end
      end
  end.

Definition sub (r : rule) (s : string) : string := sub_from r 0 s.

(** Modelled from the spec: overlapping matches resolve by catalogue
    order, the rules being applied one after the other. *)
Definition redact_string (cat : catalogue) (s : string) : string :=
  fold_left (fun t r => sub r t) cat s.

(** Modelled from the spec: [redact(value)] yields a value of the same
    shape in which every string leaf is redacted; other leaves pass
    through unchanged. *)
Fixpoint redact (cat : catalogue) (v : value) : value :=
  match v with
  | VStr s => VStr (redact_string cat s)
  | VList l => VList (map (redact cat) l)
  | VDict d => VDict (map (fun kv => (fst kv, redact cat (snd kv))) d)
  | _ => v
  end.

(** [matches r s]: rule [r] finds a match somewhere in [s]. *)
Fixpoint matches (r : rule) (s : string) : bool :=
  match s with
  | EmptyString => false
  | String _ s' =>
      match detect r s with
      | Some (S _) => true
      | _ => matches r s'
      end
  end.

(** No rule of the catalogue finds anything in the text. *)
Definition clean_string (cat : catalogue) (s : string) : bool :=
  forallb (fun r => negb (matches r s)) cat.

(** No rule of the catalogue finds anything in any string leaf. *)
Fixpoint clean (cat : catalogue) (v : value) : bool :=
  match v with
  | VStr s => clean_string cat s
  | VList l => forallb (clean cat) l
  | VDict d => forallb (fun kv => clean cat (snd kv)) d
  | _ => true
  end.


End Redaction.

(* ===================================================================== *)
(** ** [BlackBoxWrapper] *)
(* ===================================================================== *)

(** Modelled from the spec: the fields of [Policy] ([roma_blackbox/policy.py]
    is not part of the sources at hand); the wrapper only reads them. *)
Record Policy := mkPolicy
  { black_box : bool;
    keep_hashes : bool;
    include_code_sha : bool;
    include_policy_hash : bool;
    break_glass_request_ids : gset string }.

(** The dataclass [BlackBoxResult].  [traces], [cost_cents] and
    [attestation] hold whatever object the agent or the attestation
    generator handed over; [None] is [VNone]. *)
Record BlackBoxResult := mkResult
  { request_id : string;
    status : string;
    result : value;
    traces : value;
    latency_ms : Z;
    cost_cents : value;
    input_hash : option string;
    output_hash : option string;
    attestation : value }.

(** Calls the wrapper makes on its collaborators. *)
Inductive call :=
| AgentRun (task : string) (kw : list (string * value))
| StoreOutcome (record : value)
| RecordRequest (st : string) (latency : Z) (cost : value)
| RecordTraceStrip
| RecordBreakGlass
| Generate (rid : string) (ih oh : option string).

(** A call together with how it ended. *)
Definition event : Type := call * outcome value.

Section Collaborators.

(** The state of everything outside the wrapper: the agent, the storage
    and metrics backends, the attestation generator, the clocks. *)
Variable W : Type.

Definition effect (A : Type) : Type := W -> outcome A * W.

(** The wrapped agent: [type(agent)] as it prints, and its [run] method
    when it has one.  The first argument is the positional [task], the
    second the keyword arguments. *)
Record Agent := mkAgent
  { agent_type : string;
    agent_run : option (string -> list (string * value) -> effect value) }.

Record Storage := mkStorage
  { store_outcome : value -> effect value }.

Record Metrics := mkMetrics
  { record_request : string -> Z -> value -> effect value;
    record_trace_strip : effect value;
    record_break_glass : effect value }.

Record AttestationGenerator := mkAttestationGenerator
  { generate : string -> option string -> option string -> effect value }.

(** What the wrapper uses of the Python runtime: the system clock, in
    nanoseconds, which [time.time()] reads; [datetime.now(UTC).isoformat()];
    and the built-in [str]. *)
Record Runtime := mkRuntime
  { time_ns : W -> Z * W;
    utc_now_isoformat : W -> string * W;
    py_str : value -> string }.

(** [time.time()]: the reading of the clock, as a [float] of seconds. *)
Definition time_time (rt : Runtime) (w : W) : Q * W :=
  match time_ns rt w with
  | (t, w') => (as_seconds_double (saturate t), w')
  end.

(** Modelled from the spec: a redactor satisfies the contract
    [redact(value) -> value of the same shape] and is free of side effects
    ([roma_blackbox/pii_patterns.py] and [roma_blackbox/filters.py] are not
    part of the sources at hand). *)
Definition Redactor : Type := value -> value.

(** The attributes of a [BlackBoxWrapper] instance that [run] reads, and
    the runtime it executes in. *)
Record BlackBoxWrapper := mkWrapper
  { agent : Agent;
    policy : Policy;
    use_enhanced_pii : bool;
    pii_redactor : Redactor;
    metrics : Metrics;
    storage : Storage;
    attestation_gen : AttestationGenerator;
    runtime : Runtime }.

(** The [storage] argument of the constructor: a backend name or a storage
    object. *)
Inductive storage_arg :=
| StorageName (name : string)
| StorageObject (s : Storage).

(** The [metrics] argument of the constructor: [None], or an object with
    its truth value, which [metrics or InMemoryMetrics()] tests. *)
Inductive metrics_arg :=
| MetricsNone
| MetricsObject (m : Metrics) (truthy : bool).

(** One statement after the other, as long as none raises. *)
Definition and_then {A B} (m : effect A) (k : A -> effect B) : effect B :=
  fun w =>
    match m w with
    | (Ret a, w1) => k a w1
    | (Raise e, w1) => (Raise e, w1)
    end.

Definition value_of {A} (a : A) : effect A := fun w => (Ret a, w).

(** [metrics or InMemoryMetrics()] *)
Definition metrics_or (InMemoryMetrics : effect Metrics)
           (metrics : metrics_arg) : effect Metrics :=
  match metrics with
  | MetricsObject m true => value_of m
  | _ => InMemoryMetrics
  end.

(** Lines 59-68: the storage named, or the storage given. *)
Definition storage_of (MemoryStorage PostgreSQLStorage : effect Storage)
           (storage : storage_arg) : effect Storage :=
  match storage with
  | StorageName name =>
      if String.eqb name "memory" then MemoryStorage
      else if String.eqb name "postgres" then PostgreSQLStorage
      else fun w =>
             (Raise (mkExn ExcOther ("Unknown storage backend: " ++ name)), w)
  | StorageObject s => value_of s
  end.

(** [BlackBoxWrapper.__init__].  [EnhancedPIIRedactor], [PIIRedactor],
    [TraceFilter], [MemoryStorage], [PostgreSQLStorage], [InMemoryMetrics]
    and [AttestationGenerator] are the classes the constructor
    instantiates, in this order; instantiating one may raise, and may
    change the state of the world.  The trace filter is kept in an
    attribute that no method reads. *)
Definition __init__
           (EnhancedPIIRedactor : effect Redactor)
           (PIIRedactor : Policy -> effect Redactor)
           (TraceFilter : Policy -> effect unit)
           (MemoryStorage PostgreSQLStorage : effect Storage)
           (InMemoryMetrics : effect Metrics)
           (AttestationGenerator_ : Policy -> string
                                    -> effect AttestationGenerator)
           (rt : Runtime)
           (agent : Agent) (policy : Policy) (storage : storage_arg)
           (metrics : metrics_arg) (use_enhanced_pii : bool)
  : effect BlackBoxWrapper :=
  and_then (if use_enhanced_pii then EnhancedPIIRedactor
            else PIIRedactor policy) (fun pii_redactor =>
  and_then (TraceFilter policy) (fun _ =>
  and_then (metrics_or InMemoryMetrics metrics) (fun metrics =>
  and_then (storage_of MemoryStorage PostgreSQLStorage storage)
           (fun storage =>
  and_then (AttestationGenerator_ policy "fake_sha_for_demo") (fun gen =>
  value_of (mkWrapper agent policy use_enhanced_pii pii_redactor metrics
                      storage gen rt)))))).

(** *** The monad: collaborator state, exceptions, and the calls made *)

Definition M (A : Type) : Type := W -> outcome A * W * list event.

Definition ret {A} (a : A) : M A := fun w => (Ret a, w, []).

Definition raise {A} (e : exn) : M A := fun w => (Raise e, w, []).

Definition bind {A B} (m : M A) (k : A -> M B) : M B :=
  fun w =>
    match m w with
    | (Ret a, w1, l1) =>
        match k a w1 with
        | (o, w2, l2) => (o, w2, l1 ++ l2)
        end
    | (Raise e, w1, l1) => (Raise e, w1, l1)
    end.

(** [try: m  except <class> as e: h e], where [catches] tells whether the
    raised exception is an instance of the class. *)
Definition try_except {A} (m : M A) (catches : exn -> bool)
           (h : exn -> M A) : M A :=
  fun w =>
    match m w with
    | (Ret a, w1, l1) => (Ret a, w1, l1)
    | (Raise e, w1, l1) =>
        if catches e then
          match h e w1 with
          | (o, w2, l2) => (o, w2, l1 ++ l2)
          end
        else (Raise e, w1, l1)
    end.

(** A call on a collaborator, recorded with its outcome. *)
Definition perform (c : call) (f : effect value) : M value :=
  fun w => match f w with (o, w') => (o, w', [(c, o)]) end.

(** A clock reading. *)
Definition read {A} (f : W -> A * W) : M A :=
  fun w => match f w with (a, w') => (Ret a, w', []) end.

(** A step that touches no collaborator. *)
Definition lift {A} (o : outcome A) : M A := fun w => (o, w, []).

Notation "x <- m ;; k" := (bind m (fun x => k))
  (at level 100, m at next level, right associativity).
Notation "m ;; k" := (bind m (fun _ => k))
  (at level 100, right associativity).

(** *** The methods *)

Variable self : BlackBoxWrapper.

(** The collaborators' methods, as the wrapper calls them. *)
Definition storage_store_outcome (record : value) : M value :=
  perform (StoreOutcome record) (store_outcome (storage self) record).

Definition metrics_record_request (st : string) (latency : Z)
           (cost : value) : M value :=
  perform (RecordRequest st latency cost)
          (record_request (metrics self) st latency cost).

Definition metrics_record_trace_strip : M value :=
  perform RecordTraceStrip (record_trace_strip (metrics self)).

Definition metrics_record_break_glass : M value :=
  perform RecordBreakGlass (record_break_glass (metrics self)).

Definition attestation_gen_generate (rid : string)
           (ih oh : option string) : M value :=
  perform (Generate rid ih oh) (generate (attestation_gen self) rid ih oh).

Definition time_now : M Q := read (time_time (runtime self)).

Definition datetime_now_isoformat : M string :=
  read (utc_now_isoformat (runtime self)).

(** A dictionary entry with a string key. *)
Definition item (k : string) (v : value) : value * value := (VStr k, v).

Definition opt_str (h : option string) : value :=
  match h with
  | Some s => VStr s
  | None => VNone
  end.

(** [_parse_agent_result] *)
Definition _parse_agent_result (agent_result : value)
  : value * value * value :=
  match agent_result with
  | VDict d =>
      (dict_get d "result" agent_result,
       dict_get d "traces" VNone,
       dict_get d "cost_cents" (VFloat 0))
  | _ => (agent_result, VNone, VFloat 0)
  end.

(** [_compute_hash]: the digest of [str(data).encode()], the rendering of
    [data] being the runtime's. *)
Definition _compute_hash (data : value) : string :=
  Sha256.hexdigest (py_str (runtime self) data).

(** [payload or {}] *)
Definition payload_or_empty (payload : option dict) : dict :=
  match payload with
  | Some (e :: d) => e :: d
  | _ => []
  end.

(** [int((time.time() - start_time) * 1000)]: a subtraction and a
    multiplication of [float]s, each with its rounding, then the
    truncation towards zero. *)
Definition elapsed_ms (start_time now : Q) : Z :=
  int_of_Q (Float64.mul (Float64.sub now start_time) 1000).

Definition no_run_method : exn :=
  mkExn ExcAttributeError
        ("Agent " ++ agent_type (agent self) ++ " has no run() method").

(** Lines 90-96 of [run]: the agent's [run] is called with the task and
    the keyword arguments [**payload, **kwargs]; a [TypeError] leads to a
    second call with the task alone; an agent without [run] is an
    [AttributeError]. *)
Definition invoke_agent (task : string) (payload : dict)
           (kwargs : list (string * value)) : M value :=
  match agent_run (agent self) with
  | Some agent_run =>
      try_except
        (match call_keywords payload kwargs with
         | Some kw => perform (AgentRun task kw) (agent_run task kw)
         | None => raise (mkExn ExcTypeError "bad keyword arguments")
         end)
        is_TypeError
        (fun _ => perform (AgentRun task []) (agent_run task []))
  | None => raise no_run_method
  end.

(** The outcome record of a successful request (lines 113-121). *)
Definition success_record (request_id : string)
           (input_hash output_hash : option string) (latency_ms : Z)
           (cost_cents : value) (created_at : string) : value :=
  VDict [item "request_id" (VStr request_id);
         item "status" (VStr "success");
         item "input_hash" (opt_str input_hash);
         item "output_hash" (opt_str output_hash);
         item "latency_ms" (VInt latency_ms);
         item "cost_cents" cost_cents;
         item "created_at" (VStr created_at)].

(** The outcome record of a failed request (lines 156-162). *)
Definition error_record (request_id : string) (e : exn) (latency_ms : Z)
           (created_at : string) : value :=
  VDict [item "request_id" (VStr request_id);
         item "status" (VStr "error");
         item "error" (VStr (exc_str e));
         item "latency_ms" (VInt latency_ms);
         item "created_at" (VStr created_at)].

(** The annotation of lines 134-138. *)
Definition break_glass_record (timestamp : string) : value :=
  VDict [item "enabled" (VBool true);
         item "reason" (VStr "Request ID in break_glass_request_ids");
         item "timestamp" (VStr timestamp)].

(** Lines 126-138: the attestation, if the policy asks for one. *)
Definition make_attestation (is_break_glass : bool) (request_id : string)
           (input_hash output_hash : option string) : M value :=
  if include_code_sha (policy self) || include_policy_hash (policy self) then
    attestation <-
      attestation_gen_generate request_id input_hash output_hash ;;
    if is_break_glass then
      timestamp <- datetime_now_isoformat ;;
      lift (setitem attestation "break_glass"
                    (break_glass_record timestamp))
    else ret attestation
  else ret VNone.

(** The [try] block of [run] (lines 87-150). *)
Definition run_try (start_time : Q) (is_break_glass : bool)
           (request_id task : string) (payload : dict)
           (kwargs : list (string * value)) : M BlackBoxResult :=
  let redacted_input :=
    pii_redactor self
      (VDict [item "task" (VStr task); item "payload" (VDict payload)]) in
  let input_hash :=
    if keep_hashes (policy self) then Some (_compute_hash redacted_input)
    else None in
  agent_result <- invoke_agent task payload kwargs ;;
  let '(result, traces, cost_cents) := _parse_agent_result agent_result in
  traces <- (if black_box (policy self) && negb is_break_glass
             then metrics_record_trace_strip ;; ret VNone
             else ret traces) ;;
  let output_hash :=
    if keep_hashes (policy self) then Some (_compute_hash result)
    else None in
  now <- time_now ;;
  let latency_ms := elapsed_ms start_time now in
  let result :=
    if use_enhanced_pii self then pii_redactor self result else result in
  created_at <- datetime_now_isoformat ;;
  storage_store_outcome
    (success_record request_id input_hash output_hash latency_ms
                    cost_cents created_at) ;;
  metrics_record_request "success" latency_ms cost_cents ;;
  attestation <-
    make_attestation is_break_glass request_id input_hash output_hash ;;
  ret (mkResult request_id "success" result traces latency_ms cost_cents
                input_hash output_hash attestation).

(** The [except Exception as e] block of [run] (lines 153-176). *)
Definition run_except (start_time : Q) (request_id : string) (e : exn)
  : M BlackBoxResult :=
  now <- time_now ;;
  let latency_ms := elapsed_ms start_time now in
  created_at <- datetime_now_isoformat ;;
  storage_store_outcome (error_record request_id e latency_ms created_at) ;;
  metrics_record_request "error" latency_ms (VInt 0) ;;
  ret (mkResult request_id "error"
                (VDict [item "error" (VStr (exc_str e))])
                VNone latency_ms (VInt 0) None None
                (VDict [item "error" (VStr (exc_str e))])).

(** Lines 78-84 of [run] on their own: the clock reading, the break-glass
    test and its metrics notification. *)
Definition run_prologue (request_id : string) : M (Q * bool) :=
  start_time <- time_now ;;
  let is_break_glass :=
    bool_decide (request_id ∈ break_glass_request_ids (policy self)) in
  (if is_break_glass then metrics_record_break_glass else ret VNone) ;;
  ret (start_time, is_break_glass).

(** [BlackBoxWrapper.run].  Logging is not modelled. *)
Definition run (request_id task : string) (payload : option dict)
           (kwargs : list (string * value)) : M BlackBoxResult :=
  start_time <- time_now ;;
  let payload := payload_or_empty payload in
  let is_break_glass :=
    bool_decide (request_id ∈ break_glass_request_ids (policy self)) in
  (if is_break_glass then metrics_record_break_glass else ret VNone) ;;
  try_except
    (run_try start_time is_break_glass request_id task payload kwargs)
    is_Exception
    (run_except start_time request_id).

End Collaborators.

Arguments Agent W : clear implicits.
Arguments mkAgent {W} _ _.
Arguments agent_type {W} _.
Arguments agent_run {W} _.
Arguments mkStorage {W} _.
Arguments store_outcome {W} _ _ _.
Arguments mkMetrics {W} _ _ _.
Arguments record_request {W} _ _ _ _ _.
Arguments record_trace_strip {W} _ _.
Arguments record_break_glass {W} _ _.
Arguments mkAttestationGenerator {W} _.
Arguments generate {W} _ _ _ _ _.
Arguments mkRuntime {W} _ _ _.
Arguments time_ns {W} _ _.
Arguments time_time {W} _ _ : simpl never.
Arguments utc_now_isoformat {W} _ _.
Arguments py_str {W} _ _.
Arguments mkWrapper {W} _ _ _ _ _ _ _ _.
Arguments agent {W} _.
Arguments policy {W} _.
Arguments use_enhanced_pii {W} _.
Arguments pii_redactor {W} _ _.
Arguments metrics {W} _.
Arguments storage {W} _.
Arguments attestation_gen {W} _.
Arguments runtime {W} _.
Arguments StorageName {W} _.
Arguments StorageObject {W} _.
Arguments MetricsNone {W}.
Arguments MetricsObject {W} _ _.
Arguments and_then {W A B} _ _ _.
Arguments value_of {W A} _ _.
Arguments metrics_or {W} _ _.
Arguments storage_of {W} _ _ _.
Arguments __init__ {W} _ _ _ _ _ _ _ _ _ _ _ _ _.
Arguments ret {W A} _ _.
Arguments raise {W A} _ _.
Arguments bind {W A B} _ _ _.
Arguments try_except {W A} _ _ _ _.
Arguments perform {W} _ _ _.
Arguments read {W A} _ _.
Arguments lift {W A} _ _.
Arguments storage_store_outcome {W} _ _ _.
Arguments metrics_record_request {W} _ _ _ _ _.
Arguments metrics_record_trace_strip {W} _ _.
Arguments metrics_record_break_glass {W} _ _.
Arguments attestation_gen_generate {W} _ _ _ _ _.
Arguments time_now {W} _ _.
Arguments datetime_now_isoformat {W} _ _.
Arguments _compute_hash {W} _ _.
Arguments no_run_method {W} _.
Arguments invoke_agent {W} _ _ _ _ _.
Arguments make_attestation {W} _ _ _ _ _ _.
Arguments run_try {W} _ _ _ _ _ _ _ _.
Arguments run_except {W} _ _ _ _ _.
Arguments run_prologue {W} _ _ _.
Arguments run {W} _ _ _ _ _ _.

(** *** Reading the list of calls a run made *)

Definition is_agent_run (c : call) : bool :=
  match c with AgentRun _ _ => true | _ => false end.

Definition is_store_outcome (c : call) : bool :=
  match c with StoreOutcome _ => true | _ => false end.

Definition is_trace_strip (c : call) : bool :=
  match c with RecordTraceStrip => true | _ => false end.

Definition is_break_glass_call (c : call) : bool :=
  match c with RecordBreakGlass => true | _ => false end.

Definition is_generate (c : call) : bool :=
  match c with Generate _ _ _ => true | _ => false end.

Definition is_record_request (c : call) : bool :=
  match c with RecordRequest _ _ _ => true | _ => false end.

(** How many calls of a kind were made. *)
Definition count_calls (p : call -> bool) (evs : list event) : nat :=
  length (filter (fun ev => p (fst ev)) evs).

(** The calls of a kind, in the order they were made. *)
Definition calls_of (p : call -> bool) (evs : list event) : list event :=
  filter (fun ev => p (fst ev)) evs.

(** The value the agent's [run] returned, if a call of it returned. *)
Fixpoint agent_response (evs : list event) : option value :=
  match evs with
  | [] => None
  | (AgentRun _ _, Ret v) :: _ => Some v
  | _ :: evs' => agent_response evs'
  end.

(** The records handed to [store_outcome], with the outcome of each write. *)
Fixpoint store_calls (evs : list event) : list (value * outcome value) :=
  match evs with
  | [] => []
  | (StoreOutcome r, o) :: evs' => (r, o) :: store_calls evs'
  | _ :: evs' => store_calls evs'
  end.

(** The records whose write returned normally. *)
Fixpoint persisted (evs : list event) : list value :=
  match evs with
  | [] => []
  | (StoreOutcome r, Ret _) :: evs' => r :: persisted evs'
  | _ :: evs' => persisted evs'
  end.

(** The keys of a dictionary. *)
Definition dict_keys (v : value) : list value :=
  match v with
  | VDict d => map fst d
  | _ => []
  end.

(** [v[k]] read defensively: [None] when [v] is no dictionary or lacks
    the key. *)
Definition field (v : value) (k : string) : option value :=
  match v with
  | VDict d => dict_lookup d k
  | _ => None
  end.

(** A hex-encoded SHA-256 digest: 64 lower-case hexadecimal digits. *)
Definition is_sha256_hex (h : string) : bool :=
  (String.length h =? 64)%nat
  && forallb Sha256.is_hex (list_ascii_of_string h).

(** The three components of [_parse_agent_result]'s tuple. *)
Definition parsed_result (v : value) : value := fst (fst (_parse_agent_result v)).
Definition parsed_traces (v : value) : value := snd (fst (_parse_agent_result v)).
Definition parsed_cost (v : value) : value := snd (_parse_agent_result v).

(** *** What a run computes, and where it can end *)

Section Exits.
Context {W : Type} (self : BlackBoxWrapper W).

(** [input_hash] as line 88 computes it. *)
Definition input_hash_of (task : string) (payload : dict) : option string :=
  if keep_hashes (policy self) then
    Some (_compute_hash self
            (pii_redactor self
               (VDict [item "task" (VStr task);
                       item "payload" (VDict payload)])))
  else None.

(** [output_hash] as line 104 computes it, from the parsed result. *)
Definition output_hash_of (result : value) : option string :=
  if keep_hashes (policy self) then Some (_compute_hash self result)
  else None.

(** The result handed back to the caller (lines 109-110). *)
Definition visible_result (result : value) : value :=
  if use_enhanced_pii self then pii_redactor self result else result.

(** Whether the traces are stripped (line 100). *)
Definition strips (is_break_glass : bool) : bool :=
  black_box (policy self) && negb is_break_glass.

(** The [BlackBoxResult] of the failure path (lines 166-176). *)
Definition error_result (request_id : string) (e : exn) (latency : Z)
  : BlackBoxResult :=
  mkResult request_id "error" (VDict [item "error" (VStr (exc_str e))])
           VNone latency (VInt 0) None None
           (VDict [item "error" (VStr (exc_str e))]).

(** The [BlackBoxResult] of the success path (lines 140-150), for the
    agent's response [v]. *)
Definition success_result (is_break_glass : bool) (request_id task : string)
           (payload : dict) (v : value) (latency : Z) (att : value)
  : BlackBoxResult :=
  mkResult request_id "success"
           (visible_result (parsed_result v))
           (if strips is_break_glass then VNone else parsed_traces v)
           latency (parsed_cost v)
           (input_hash_of task payload)
           (output_hash_of (parsed_result v))
           att.

(** The ways the invocation of lines 90-96 can go.  [invocation w o w' l]
    relates the world before to the outcome, the world after and the
    calls made: the agent has no [run] method; the call with the keyword
    arguments ends the invocation; that call raises a [TypeError] and the
    agent is called again with the task alone; or the keyword arguments
    cannot be passed at all, which is a [TypeError] of the call itself,
    and the agent is called with the task alone. *)
Inductive invocation (task : string) (payload : dict)
          (kwargs : list (string * value)) (w : W)
  : outcome value -> W -> list event -> Prop :=
| invocation_impossible :
    agent_run (agent self) = None ->
    invocation task payload kwargs w
      (Raise (no_run_method self)) w []
| invocation_accepted f kws o w1 :
    agent_run (agent self) = Some f ->
    call_keywords payload kwargs = Some kws ->
    f task kws w = (o, w1) ->
    (forall e, o = Raise e -> is_TypeError e = false) ->
    invocation task payload kwargs w o w1 [(AgentRun task kws, o)]
| invocation_retried f kws e w1 o w2 :
    agent_run (agent self) = Some f ->
    call_keywords payload kwargs = Some kws ->
    f task kws w = (Raise e, w1) ->
    is_TypeError e = true ->
    f task [] w1 = (o, w2) ->
    invocation task payload kwargs w o w2
      [(AgentRun task kws, Raise e); (AgentRun task [], o)]
| invocation_reshaped f o w1 :
    agent_run (agent self) = Some f ->
    call_keywords payload kwargs = None ->
    f task [] w = (o, w1) ->
    invocation task payload kwargs w o w1 [(AgentRun task [], o)].


(** The calls of the trace-stripping step. *)
Definition strip_calls (is_break_glass : bool) (o : outcome value)
  : list event :=
  if strips is_break_glass then [(RecordTraceStrip, o)] else [].

(** The ways the [try] block of [run] can end, each with the calls made up
    to there: the agent's invocation raises; the trace-strip notification
    raises; the storage write raises; the metrics notification raises; the
    attestation step raises; or the block returns its result. *)
Inductive try_exit (start_time : Q) (is_break_glass : bool)
          (request_id task : string) (payload : dict)
          (kwargs : list (string * value)) (w : W)
  : outcome BlackBoxResult -> W -> list event -> Prop :=
| exit_agent e wa la :
    invoke_agent self task payload kwargs w = (Raise e, wa, la) ->
    try_exit start_time is_break_glass request_id task payload kwargs w
      (Raise e) wa la
| exit_strip v wa la e w' :
    invoke_agent self task payload kwargs w = (Ret v, wa, la) ->
    strips is_break_glass = true ->
    record_trace_strip (metrics self) wa = (Raise e, w') ->
    try_exit start_time is_break_glass request_id task payload kwargs w
      (Raise e) w' (la ++ [(RecordTraceStrip, Raise e)])
| exit_store v wa la x ws now w1 created w2 e w' :
    invoke_agent self task payload kwargs w = (Ret v, wa, la) ->
    (if strips is_break_glass
     then record_trace_strip (metrics self) wa = (Ret x, ws)
     else ws = wa) ->
    time_time (runtime self) ws = (now, w1) ->
    utc_now_isoformat (runtime self) w1 = (created, w2) ->
    store_outcome (storage self)
      (success_record request_id (input_hash_of task payload)
         (output_hash_of (parsed_result v)) (elapsed_ms start_time now)
         (parsed_cost v) created) w2 = (Raise e, w') ->
    try_exit start_time is_break_glass request_id task payload kwargs w
      (Raise e) w'
      (la ++ strip_calls is_break_glass (Ret x)
          ++ [(StoreOutcome
                 (success_record request_id (input_hash_of task payload)
                    (output_hash_of (parsed_result v))
                    (elapsed_ms start_time now) (parsed_cost v) created),
               Raise e)])
| exit_metrics v wa la x ws now w1 created w2 sv w3 e w' :
    invoke_agent self task payload kwargs w = (Ret v, wa, la) ->
    (if strips is_break_glass
     then record_trace_strip (metrics self) wa = (Ret x, ws)
     else ws = wa) ->
    time_time (runtime self) ws = (now, w1) ->
    utc_now_isoformat (runtime self) w1 = (created, w2) ->
    store_outcome (storage self)
      (success_record request_id (input_hash_of task payload)
         (output_hash_of (parsed_result v)) (elapsed_ms start_time now)
         (parsed_cost v) created) w2 = (Ret sv, w3) ->
    record_request (metrics self) "success" (elapsed_ms start_time now)
      (parsed_cost v) w3 = (Raise e, w') ->
    try_exit start_time is_break_glass request_id task payload kwargs w
      (Raise e) w'
      (la ++ strip_calls is_break_glass (Ret x)
          ++ [(StoreOutcome
                 (success_record request_id (input_hash_of task payload)
                    (output_hash_of (parsed_result v))
                    (elapsed_ms start_time now) (parsed_cost v) created),
               Ret sv);
              (RecordRequest "success" (elapsed_ms start_time now)
                 (parsed_cost v), Raise e)])
| exit_after_metrics v wa la x ws now w1 created w2 sv w3 mv w4 oa w' latt :
    invoke_agent self task payload kwargs w = (Ret v, wa, la) ->
    (if strips is_break_glass
     then record_trace_strip (metrics self) wa = (Ret x, ws)
     else ws = wa) ->
    time_time (runtime self) ws = (now, w1) ->
    utc_now_isoformat (runtime self) w1 = (created, w2) ->
    store_outcome (storage self)
      (success_record request_id (input_hash_of task payload)
         (output_hash_of (parsed_result v)) (elapsed_ms start_time now)
         (parsed_cost v) created) w2 = (Ret sv, w3) ->
    record_request (metrics self) "success" (elapsed_ms start_time now)
      (parsed_cost v) w3 = (Ret mv, w4) ->
    make_attestation self is_break_glass request_id
      (input_hash_of task payload) (output_hash_of (parsed_result v)) w4
    = (oa, w', latt) ->
    try_exit start_time is_break_glass request_id task payload kwargs w
      (match oa with
       | Ret att =>
           Ret (success_result is_break_glass request_id task payload v
                               (elapsed_ms start_time now) att)
       | Raise e => Raise e
       end) w'
      (la ++ strip_calls is_break_glass (Ret x)
          ++ [(StoreOutcome
                 (success_record request_id (input_hash_of task payload)
                    (output_hash_of (parsed_result v))
                    (elapsed_ms start_time now) (parsed_cost v) created),
               Ret sv);
              (RecordRequest "success" (elapsed_ms start_time now)
                 (parsed_cost v), Ret mv)]
          ++ latt).

(** Whether the request is under break-glass (line 80). *)
Definition is_glass (request_id : string) : bool :=
  bool_decide (request_id ∈ break_glass_request_ids (policy self)).

(** The calls of the break-glass step. *)
Definition break_glass_calls (request_id : string) (o : outcome value)
  : list event :=
  if is_glass request_id then [(RecordBreakGlass, o)] else [].

(** The ways the [except] block of [run] can end: the storage write
    raises, or the metrics notification ends the block (by raising, or by
    letting the error result through). *)
Inductive except_exit (start_time : Q) (request_id : string) (e : exn)
          (w : W) : outcome BlackBoxResult -> W -> list event -> Prop :=
| handler_store_raises now w1 created w2 e' w' :
    time_time (runtime self) w = (now, w1) ->
    utc_now_isoformat (runtime self) w1 = (created, w2) ->
    store_outcome (storage self)
      (error_record request_id e (elapsed_ms start_time now) created) w2
    = (Raise e', w') ->
    except_exit start_time request_id e w (Raise e') w'
      [(StoreOutcome
          (error_record request_id e (elapsed_ms start_time now) created),
        Raise e')]
| handler_after_store now w1 created w2 sv w3 om w' :
    time_time (runtime self) w = (now, w1) ->
    utc_now_isoformat (runtime self) w1 = (created, w2) ->
    store_outcome (storage self)
      (error_record request_id e (elapsed_ms start_time now) created) w2
    = (Ret sv, w3) ->
    record_request (metrics self) "error" (elapsed_ms start_time now)
      (VInt 0) w3 = (om, w') ->
    except_exit start_time request_id e w
      (match om with
       | Ret _ =>
           Ret (error_result request_id e (elapsed_ms start_time now))
       | Raise e' => Raise e'
       end) w'
      [(StoreOutcome
          (error_record request_id e (elapsed_ms start_time now) created),
        Ret sv);
       (RecordRequest "error" (elapsed_ms start_time now) (VInt 0), om)].

(** The ways [run] can end: the break-glass notification raises; the [try]
    block returns, or raises what [except Exception] does not catch; or
    the [except] block takes over. *)
Inductive run_exit (request_id task : string) (payload : option dict)
          (kwargs : list (string * value)) (w : W)
  : outcome BlackBoxResult -> W -> list event -> Prop :=
| run_glass_raises t0 w0 e w' :
    time_time (runtime self) w = (t0, w0) ->
    is_glass request_id = true ->
    record_break_glass (metrics self) w0 = (Raise e, w') ->
    run_exit request_id task payload kwargs w (Raise e) w'
      [(RecordBreakGlass, Raise e)]
| run_try_ends t0 w0 x w1 o w' lt :
    time_time (runtime self) w = (t0, w0) ->
    (if is_glass request_id
     then record_break_glass (metrics self) w0 = (Ret x, w1)
     else w1 = w0) ->
    try_exit t0 (is_glass request_id) request_id task
      (payload_or_empty payload) kwargs w1 o w' lt ->
    (forall e, o = Raise e -> is_Exception e = false) ->
    run_exit request_id task payload kwargs w o w'
      (break_glass_calls request_id (Ret x) ++ lt)
| run_handles t0 w0 x w1 e wt lt o w' le :
    time_time (runtime self) w = (t0, w0) ->
    (if is_glass request_id
     then record_break_glass (metrics self) w0 = (Ret x, w1)
     else w1 = w0) ->
    try_exit t0 (is_glass request_id) request_id task
      (payload_or_empty payload) kwargs w1 (Raise e) wt lt ->
    is_Exception e = true ->
    except_exit t0 request_id e wt o w' le ->
    run_exit request_id task payload kwargs w o w'
      (break_glass_calls request_id (Ret x) ++ lt ++ le).

End Exits.

(** Every call of the list is of the kind [p]. *)
Definition only (p : call -> bool) (evs : list event) : bool :=
  forallb (fun ev => p (fst ev)) evs.

(* ===================================================================== *)
(** ** Concrete collaborators, for running the wrapper *)
(* ===================================================================== *)

Module Demo.

(** A small world: a clock in milliseconds, the records the storage holds,
    and the number of writes attempted so far. *)
Record world := mkWorld
  { now_ms : Z;
    held : list value;
    writes : nat }.

Definition start : world := mkWorld 1000 [] 0.

Definition connection_refused : exn := mkExn ExcOther "connection refused".

Definition clock (w : world) : Z * world :=
  (now_ms w * 1000000, mkWorld (now_ms w + 7) (held w) (writes w)).

Definition iso_clock (w : world) : string * world :=
  ("2024-10-06T14:30:22+00:00"%string, w).

Definition accept (record : value) (w : world) : outcome value * world :=
  (Ret VNone, mkWorld (now_ms w) (held w ++ [record]) (S (writes w))).

Definition refuse (w : world) : outcome value * world :=
  (Raise connection_refused, mkWorld (now_ms w) (held w) (S (writes w))).

(** A storage that accepts every write. *)
Definition memory_storage : Storage world := mkStorage accept.

(** A storage whose backend is unreachable. *)
Definition down_storage : Storage world := mkStorage (fun _ => refuse).

(** A storage that refuses the first write and accepts the later ones. *)
Definition flaky_storage : Storage world :=
  mkStorage
    (fun record w =>
       match writes w with
       | O => refuse w
       | S _ => accept record w
       end).

Definition quiet (w : world) : outcome value * world := (Ret VNone, w).

Definition memory_metrics : Metrics world :=
  mkMetrics (fun _ _ _ => quiet) quiet quiet.

(** Metrics whose break-glass counter is out of order. *)
Definition broken_metrics : Metrics world :=
  mkMetrics (fun _ _ _ => quiet) quiet
            (fun w => (Raise (mkExn ExcOther "metrics backend down"), w)).

Definition generator : AttestationGenerator world :=
  mkAttestationGenerator
    (fun rid ih oh w =>
       (Ret (VDict [item "request_id" (VStr rid);
                    item "input_hash" (opt_str ih);
                    item "output_hash" (opt_str oh);
                    item "code_sha" (VStr "fake_sha_for_demo")]), w)).

(** An agent whose [run] accepts any keyword arguments and answers [v]. *)
Definition answering (v : value) : Agent world :=
  mkAgent "<class 'Answering'>" (Some (fun _ _ w => (Ret v, w))).

(** An agent whose [run] raises [e]. *)
Definition failing (e : exn) : Agent world :=
  mkAgent "<class 'Failing'>" (Some (fun _ _ w => (Raise e, w))).

(** An agent whose [run] takes the task only: any keyword argument is a
    [TypeError]. *)
Definition task_only (v : value) : Agent world :=
  mkAgent "<class 'TaskOnly'>"
    (Some (fun _ kw w =>
             match kw with
             | [] => (Ret v, w)
             | _ :: _ =>
                 (Raise (mkExn ExcTypeError "unexpected keyword argument"), w)
             end)).

(** An object without a [run] method. *)
Definition not_an_agent : Agent world := mkAgent "<class 'object'>" None.

(** A rendering in the manner of [repr], sufficient for the values of the
    examples (strings without quotes or escapes, whole floats). *)
Fixpoint repr (v : value) : string :=
  match v with
  | VNone => "None"
  | VBool true => "True"
  | VBool false => "False"
  | VInt n => NilZero.string_of_int (Z.to_int n)
  | VFloat q =>
      (NilZero.string_of_int (Z.to_int (int_of_Q q)) ++ ".0")
  | VStr s => ("'" ++ s ++ "'")
  | VList l => ("[" ++ String.concat ", " (map repr l) ++ "]")
  | VDict d =>
      ("{" ++ String.concat ", "
                (map (fun kv => repr (fst kv) ++ ": " ++ repr (snd kv)) d)
           ++ "}")
  end%string.

Definition str (v : value) : string :=
  match v with
  | VStr s => s
  | _ => repr v
  end.

Definition python : Runtime world := mkRuntime clock iso_clock str.

(** Character classes of the sample detection rules. *)
Definition between (lo hi : N) (c : ascii) : bool :=
  let n := N_of_ascii c in ((lo <=? n) && (n <=? hi))%N.

Definition is_digit (c : ascii) : bool := between 48 57 c.

Definition is_alnum (c : ascii) : bool :=
  is_digit c || between 65 90 c || between 97 122 c.

Definition is_local_char (c : ascii) : bool :=
  is_alnum c || existsb (Ascii.eqb c) ["."; "_"; "%"; "+"; "-"]%char.

Definition is_domain_char (c : ascii) : bool :=
  is_alnum c || existsb (Ascii.eqb c) ["."; "-"]%char.

(** The length of the longest prefix of [s] made of characters in [p]. *)
Fixpoint span (p : ascii -> bool) (s : string) : nat :=
  match s with
  | String c s' => if p c then S (span p s') else O
  | EmptyString => O
  end.

Fixpoint drop (n : nat) (s : string) : string :=
  match n, s with
  | S n', String _ s' => drop n' s'
  | _, _ => s
  end.

(** An e-mail address: local part, [@], domain. *)
Definition detect_email (s : string) : option nat :=
  let l := span is_local_char s in
  match l, drop l s with
  | S _, String "@" rest =>
      match span is_domain_char rest with
      | S d => Some (l + 1 + S d)%nat
      | O => None
      end
  | _, _ => None
  end.

(** A social security number: [ddd-dd-dddd]. *)
Definition detect_ssn (s : string) : option nat :=
  match s with
  | String a (String b (String c (String "-" (String d (String e
      (String "-" (String f (String g (String h (String i _)))))))))) =>
      if forallb is_digit [a; b; c; d; e; f; g; h; i] then Some 11%nat
      else None
  | _ => None
  end.

(** A run of digits. *)
Definition detect_digits (s : string) : option nat :=
  match span is_digit s with
  | O => None
  | n => Some n
  end.

(** Text without a digit. *)
Fixpoint digit_free (s : string) : bool :=
  match s with
  | EmptyString => true
  | String c s' => negb (is_digit c) && digit_free s'
  end.

Definition EMAIL : Redaction.rule := Redaction.mkRule "EMAIL" detect_email.
Definition SSN : Redaction.rule := Redaction.mkRule "SSN" detect_ssn.
Definition DIGITS : Redaction.rule := Redaction.mkRule "DIGITS" detect_digits.

Definition patterns : Redaction.catalogue := [EMAIL; SSN].




(** A rule that finds upper-case words, and so finds the markers too. *)
Definition SHOUT : Redaction.rule :=
  Redaction.mkRule "SHOUT"
    (fun s => match span (between 65 90) s with O => None | n => Some n end).

Definition enhanced : Redactor := Redaction.redact patterns.

(** A wrapper over sample collaborators. *)
Definition wrapper_on (st : Storage world) (m : Metrics world)
           (a : Agent world) (p : Policy) (enhanced_pii : bool)
  : BlackBoxWrapper world :=
  mkWrapper a p enhanced_pii
            (if enhanced_pii then enhanced else fun v => v)
            m st generator python.

Definition wrapper : Agent world -> Policy -> bool -> BlackBoxWrapper world :=
  wrapper_on memory_storage memory_metrics.

Definition strict : Policy := mkPolicy true true false false ∅.

Definition strict_with_glass : Policy :=
  mkPolicy true true true false {["incident-7"%string]}.

Definition open_policy : Policy := mkPolicy false false false false ∅.

(** The agent response of the specification's scenario:
    [{"result": "ok", "traces": ["a", "b"], "cost_cents": 1.5}]. *)
Definition scenario_response : value :=
  VDict [item "result" (VStr "ok");
         item "traces" (VList [VStr "a"; VStr "b"]);
         item "cost_cents" (VFloat (3 # 2))].

(** The response of an agent that leaks an address in its result. *)
Definition leaky_response : value :=
  VDict [item "result" (VStr "mail a@b.com");
         item "traces" (VList [VStr "looked up a@b.com"])].

(** A response without a [result] key that still has traces and a cost. *)
Definition bare_response : value :=
  VDict [item "traces" (VList [VStr "a"]); item "cost_cents" (VInt 5)].

Definition boom : exn := mkExn ExcOther "boom".

(** The runs the examples below look at. *)
Definition scenario : BlackBoxWrapper world :=
  wrapper (answering scenario_response) strict true.

Definition scenario_run : outcome BlackBoxResult * world * list event :=
  run scenario "r1" "get weather" None [] start.

Definition glass : BlackBoxWrapper world :=
  wrapper (answering scenario_response) strict_with_glass true.

Definition glass_run : outcome BlackBoxResult * world * list event :=
  run glass "incident-7" "get weather"
      (Some [item "email" (VStr "a@b.com")])
      [("city"%string, VStr "Tokyo")] start.

Definition attested_run : outcome BlackBoxResult * world * list event :=
  run glass "r1" "get weather" None [] start.

Definition leaky : BlackBoxWrapper world :=
  wrapper (answering leaky_response) strict true.

Definition leaky_run : outcome BlackBoxResult * world * list event :=
  run leaky "r1" "find the address" None [] start.

Definition crashed : BlackBoxWrapper world :=
  wrapper (failing boom) strict true.

Definition crashed_run : outcome BlackBoxResult * world * list event :=
  run crashed "r1" "get weather" None [] start.

Definition crashed_offline : BlackBoxWrapper world :=
  wrapper_on down_storage memory_metrics (failing boom) strict true.

Definition crashed_offline_run
  : outcome BlackBoxResult * world * list event :=
  run crashed_offline "r1" "get weather" None [] start.

Definition offline : BlackBoxWrapper world :=
  wrapper_on down_storage memory_metrics (answering scenario_response)
             strict true.

Definition offline_run : outcome BlackBoxResult * world * list event :=
  run offline "r1" "get weather" None [] start.

Definition flaky : BlackBoxWrapper world :=
  wrapper_on flaky_storage memory_metrics (answering scenario_response)
             strict true.

Definition flaky_run : outcome BlackBoxResult * world * list event :=
  run flaky "r1" "get weather" None [] start.

Definition picky : BlackBoxWrapper world :=
  wrapper (task_only (VStr "done")) open_policy false.

Definition picky_run : outcome BlackBoxResult * world * list event :=
  run picky "r1" "get weather"
      (Some [item "email" (VStr "a@b.com")])
      [("city"%string, VStr "Tokyo")] start.

End Demo.

(* ===================================================================== *)
(** ** The agents of the repository's scripts *)
(* ===================================================================== *)

Module Scripts.

(** Both agents declare [async def run(self, task: str, **kwargs)]: a
    keyword argument named like one of the two positional parameters is a
    [TypeError] of the call. *)
Definition rebinds_parameter (kw : list (string * value)) : bool :=
  has_key kw "task" || has_key kw "self".

Definition multiple_values : exn :=
  mkExn ExcTypeError "got multiple values for argument".

(** [kwargs.get(k, default)] *)
Definition kwargs_get (kw : list (string * value)) (k : string)
           (default : value) : value :=
  match find (fun e => String.eqb (fst e) k) kw with
  | Some e => snd e
  | None => default
  end.

(** [test_trace_debug.py]: what [DebugAgent.run] returns. *)
Definition debug_response : value :=
  VDict [item "status" (VStr "success");
         item "result" (VStr "test output");
         item "trace" (VList [VStr "step1"; VStr "step2"; VStr "step3"])].

(** [test_trace_debug.py]: [DebugAgent]. *)
Definition DebugAgent {W : Type} : Agent W :=
  mkAgent "<class '__main__.DebugAgent'>"
    (Some (fun _ kw w =>
             if rebinds_parameter kw then (Raise multiple_values, w)
             else (Ret debug_response, w))).

Section Weather.
Context {W : Type}.

(** [datetime.now().isoformat()], the local clock of the script, and the
    rendering of [{city}] in an f-string. *)
Variable now_isoformat : W -> string * W.
Variable format : value -> string.

(** [demo/showcase.py], lines 122-131: the traces of [WeatherAgent.run]. *)
Definition weather_traces (stamp : string) (city : value) : list value :=
  [VStr ("[" ++ stamp ++ "] WeatherAgent initialized");
   VStr ("[API] Calling OpenWeatherMap for " ++ format city);
   VStr "[API] API Key: sk_live_abc123... (first 10 chars)";
   VStr "[DB] Querying user preferences database";
   VStr "[DB] Retrieved email: user@example.com from profile";
   VStr "[CALC] Converting temperature Kelvin -> Celsius";
   VStr "[CALC] Applying user timezone offset";
   VStr "[FORMAT] Formatting response for delivery"].

(** [demo/showcase.py], lines 133-139: its result. *)
Definition weather_result (city : value) : value :=
  VDict [item "city" city;
         item "temperature" (VInt 25);
         item "condition" (VStr "Sunny");
         item "humidity" (VInt 65);
         item "recommendation" (VStr "Great day for outdoor activities!")].

(** [demo/showcase.py], lines 117-145: [WeatherAgent]. *)
Definition WeatherAgent : Agent W :=
  mkAgent "<class '__main__.WeatherAgent'>"
    (Some (fun _ kw w =>
             if rebinds_parameter kw then (Raise multiple_values, w)
             else
               let city := kwargs_get kw "city" (VStr "Unknown") in
               match now_isoformat w with
               | (stamp, w') =>
                   (Ret (VDict [item "status" (VStr "success");
                                item "result" (weather_result city);
                                item "traces"
                                  (VList (weather_traces stamp city))]),
                    w')
               end)).

End Weather.

End Scripts.

(** *** More readers of call lists *)

(** The method a call is made on. *)
Definition call_name (c : call) : string :=
  match c with
  | AgentRun _ _ => "agent.run"
  | StoreOutcome _ => "storage.store_outcome"
  | RecordRequest _ _ _ => "metrics.record_request"
  | RecordTraceStrip => "metrics.record_trace_strip"
  | RecordBreakGlass => "metrics.record_break_glass"
  | Generate _ _ _ => "attestation_gen.generate"
  end.

Definition raised (ev : event) : bool :=
  match snd ev with
  | Raise _ => true
  | Ret _ => false
  end.

(** The calls that raised. *)
Definition failures (evs : list event) : list event := filter raised evs.

(** The keys of the two outcome records. *)
Definition success_keys : list value :=
  map VStr ["request_id"; "status"; "input_hash"; "output_hash";
            "latency_ms"; "cost_cents"; "created_at"]%string.

Definition error_keys : list value :=
  map VStr ["request_id"; "status"; "error"; "latency_ms";
            "created_at"]%string.

(** Whether the policy asks for an attestation (line 127). *)
Definition attests (p : Policy) : bool :=
  include_code_sha p || include_policy_hash p.

(** A run of the sample collaborators with the script's agent. *)
Definition debug_run (p : Policy)
  : outcome BlackBoxResult * Demo.world * list event :=
  run (Demo.wrapper Scripts.DebugAgent p true) "test" "test task" None []
      Demo.start.

Definition weather : Agent Demo.world :=
  Scripts.WeatherAgent Demo.iso_clock Demo.str.

Definition weather_run (p : Policy) (enhanced_pii : bool)
  : outcome BlackBoxResult * Demo.world * list event :=
  run (Demo.wrapper weather p enhanced_pii) "weather_1" "get weather" None
      [("city"%string, VStr "Tokyo")] Demo.start.

(** The last call of a list. *)
Fixpoint last_call (evs : list event) : option event :=
  match evs with
  | [] => None
  | [ev] => Some ev
  | _ :: evs' => last_call evs'
  end.

(** The methods called, in order. *)
Definition call_names (evs : list event) : list string :=
  map (fun ev => call_name (fst ev)) evs.

(** An attestation generator that is out of order. *)
Definition silent_generator : AttestationGenerator Demo.world :=
  mkAttestationGenerator (fun _ _ _ w => (Raise Demo.boom, w)).

Definition unattested : BlackBoxWrapper Demo.world :=
  mkWrapper (Demo.answering Demo.scenario_response) Demo.strict_with_glass
            true Demo.enhanced Demo.memory_metrics Demo.memory_storage
            silent_generator Demo.python.

Definition unattested_run
  : outcome BlackBoxResult * Demo.world * list event :=
  run unattested "r1" "get weather" None [] Demo.start.

(** A request whose payload and extra parameters both name [city]. *)
Definition clash_run : outcome BlackBoxResult * Demo.world * list event :=
  run Demo.glass "r1" "get weather"
      (Some [item "city" (VStr "Osaka")])
      [("city"%string, VStr "Tokyo")] Demo.start.

Definition cancelled : exn := mkExn ExcBase "cancelled".

Definition cancelled_run : outcome BlackBoxResult * Demo.world * list event :=
  run (Demo.wrapper (Demo.failing cancelled) Demo.strict true)
      "r1" "get weather" None [] Demo.start.

Definition unrecorded : BlackBoxWrapper Demo.world :=
  Demo.wrapper_on Demo.memory_storage Demo.broken_metrics
                  (Demo.answering Demo.scenario_response)
                  Demo.strict_with_glass true.

(** The constructor on the sample classes, with the basic redactor. *)
Definition constructed
  : outcome (BlackBoxWrapper Demo.world) * Demo.world :=
  __init__ (value_of Demo.enhanced) (fun _ => value_of (fun v => v))
           (fun _ => value_of tt) (value_of Demo.memory_storage)
           (value_of Demo.down_storage) (value_of Demo.memory_metrics)
           (fun _ _ => value_of Demo.generator)
           Demo.python (Demo.answering Demo.leaky_response) Demo.strict
           (StorageName "memory") MetricsNone false Demo.start.

(** The same with a storage backend the constructor does not know. *)
Definition misconstructed
  : outcome (BlackBoxWrapper Demo.world) * Demo.world :=
  __init__ (value_of Demo.enhanced) (fun _ => value_of (fun v => v))
           (fun _ => value_of tt) (value_of Demo.memory_storage)
           (value_of Demo.down_storage) (value_of Demo.memory_metrics)
           (fun _ _ => value_of Demo.generator)
           Demo.python (Demo.answering Demo.leaky_response) Demo.strict
           (StorageName "Memory") MetricsNone false Demo.start.

(* ===================================================================== *)
(** ** Properties of SHA-256's rendering *)
(* ===================================================================== *)

Example sha256_empty :
  Sha256.hexdigest "" =
  "e3b0c44298fc1c149afbf4c8996fb92427ae41e4649b934ca495991b7852b855"%string.
Proof. vm_compute. reflexivity. Qed.

Example sha256_abc :
  Sha256.hexdigest "abc" =
  "ba7816bf8f01cfea414140de5dae2223b00361a396177a9cb410ff61f20015ad"%string.
Proof. vm_compute. reflexivity. Qed.

Example sha256_two_blocks :
  Sha256.hexdigest "abcdbcdecdefdefgefghfghighijhijkijkljklmklmnlmnomnopnopq" =
  "248d6a61d20638b8e5c026930c3e6039a33ce45964ff2167f6ecedd419db06c1"%string.
Proof. vm_compute. reflexivity. Qed.

Lemma hex_digit_is_hex (n : Z) : Sha256.is_hex (Sha256.hex_digit n) = true.
Proof.
  unfold Sha256.hex_digit.
  destruct (n mod 16) as [|p|p]; try reflexivity.
  do 4 (try destruct p as [p|p|]; try reflexivity).
Qed.

Lemma length_string_of_list_ascii (l : list ascii) :
  String.length (string_of_list_ascii l) = length l.
Proof. induction l as [|c l IH]; simpl; congruence. Qed.

Lemma hex_state_length (s : Sha256.state) :
  length (Sha256.hex_state s) = 64%nat.
Proof. destruct s; reflexivity. Qed.

Lemma hex_word_is_hex (x : Z) :
  forallb Sha256.is_hex (Sha256.hex_word x) = true.
Proof.
  unfold Sha256.hex_word.
  cbn [forallb]. rewrite !hex_digit_is_hex. reflexivity.
Qed.

Lemma hex_state_is_hex (s : Sha256.state) :
  forallb Sha256.is_hex (Sha256.hex_state s) = true.
Proof.
  unfold Sha256.hex_state.
  rewrite !forallb_app, !hex_word_is_hex. reflexivity.
Qed.

(** Whatever the bytes hashed, [hexdigest] prints 64 lower-case
    hexadecimal digits. *)
Lemma hexdigest_is_sha256_hex (b : string) :
  is_sha256_hex (Sha256.hexdigest b) = true.
Proof.
  unfold is_sha256_hex, Sha256.hexdigest.
  rewrite length_string_of_list_ascii, hex_state_length.
  rewrite list_ascii_of_string_of_list_ascii, hex_state_is_hex.
  reflexivity.
Qed.

(* ===================================================================== *)
(** ** Properties of dictionaries *)
(* ===================================================================== *)

Lemma dict_lookup_set_eq (d : dict) (k : string) (v : value) :
  dict_lookup (dict_set d k v) k = Some v.
Proof.
  induction d as [|[key x] d IH]; simpl.
  - rewrite String.eqb_refl. reflexivity.
  - destruct key; simpl; auto.
    destruct (String.eqb s k) eqn:E; simpl; rewrite ?E; auto.
Qed.

Lemma keywords_spec (d : dict) (kw : list (string * value)) :
  keywords d = Some kw ->
  d = map (fun e => (VStr (fst e), snd e)) kw.
Proof.
  revert kw. induction d as [|[key x] d IH]; intros kw H; simpl in H.
  - inversion H. reflexivity.
  - destruct key; try discriminate.
    destruct (keywords d) as [kw'|] eqn:E; try discriminate.
    inversion H; subst. simpl. f_equal. apply IH. reflexivity.
Qed.

(** The keywords of a call are the payload's entries followed by the
    extra parameters, none of them altered. *)
Lemma call_keywords_spec (d : dict) (kw kws : list (string * value)) :
  call_keywords d kw = Some kws ->
  exists kd, d = map (fun e => (VStr (fst e), snd e)) kd /\ kws = kd ++ kw.
Proof.
  unfold call_keywords. intros H.
  destruct (keywords d) as [kd|] eqn:E; try discriminate.
  destruct (existsb _ kd); try discriminate.
  inversion H; subst. exists kd. split; auto using keywords_spec.
Qed.

(* ===================================================================== *)
(** ** Properties of the redaction engine *)
(* ===================================================================== *)

Section RedactionFacts.
Import Redaction.
Variable cat : catalogue.




(** When redacted text never holds a match, no redacted value does. *)
Lemma redact_is_clean :
  (forall s, clean_string cat (redact_string cat s) = true) ->
  forall v, clean cat (redact cat v) = true.
Proof.
  intros Hinv v.
  induction v as [| | | |s|l IH|d IH] using value_ind_nested; simpl; auto.
  - induction IH as [|x l Hx _ IHl]; simpl; auto.
    rewrite Hx, IHl. reflexivity.
  - induction IH as [|[k x] d Hx _ IHd]; simpl in *; auto.
    rewrite Hx, IHd. reflexivity.
Qed.

End RedactionFacts.

Lemma digit_free_app (s t : string) :
  Demo.digit_free (s ++ t) = Demo.digit_free s && Demo.digit_free t.
Proof.
  induction s as [|c s IH]; simpl; auto. rewrite IH, andb_assoc. reflexivity.
Qed.

Lemma sub_from_digit_free (k : nat) (s : string) :
  Demo.digit_free (Redaction.sub_from Demo.DIGITS k s) = true.
Proof.
  revert k. induction s as [|c s IH]; intros k; simpl; auto.
  destruct k as [|k]; auto.
  unfold Demo.detect_digits. simpl.
  destruct (Demo.is_digit c) eqn:E.
  - change (Demo.digit_free
              (Redaction.marker Demo.DIGITS
               ++ Redaction.sub_from Demo.DIGITS (Demo.span Demo.is_digit s) s)
            = true).
    rewrite digit_free_app, IH. reflexivity.
  - simpl. rewrite E, IH. reflexivity.
Qed.

Lemma digit_free_no_match (s : string) :
  Demo.digit_free s = true -> Redaction.matches Demo.DIGITS s = false.
Proof.
  induction s as [|c s IH]; simpl; auto. intros H.
  apply andb_true_iff in H as [Hc Hs]. apply negb_true_iff in Hc.
  unfold Demo.detect_digits. simpl. rewrite Hc. auto.
Qed.

Lemma digits_catalogue_invariant (s : string) :
  Redaction.clean_string [Demo.DIGITS]
    (Redaction.redact_string [Demo.DIGITS] s) = true.
Proof.
  unfold Redaction.clean_string, Redaction.redact_string. simpl.
  rewrite digit_free_no_match; auto. apply sub_from_digit_free.
Qed.

(* ===================================================================== *)
(** ** Reading lists of calls *)
(* ===================================================================== *)

Lemma count_calls_app (p : call -> bool) (l1 l2 : list event) :
  count_calls p (l1 ++ l2) = (count_calls p l1 + count_calls p l2)%nat.
Proof.
  unfold count_calls. rewrite List.filter_app, List.length_app. reflexivity.
Qed.

Lemma calls_of_app (p : call -> bool) (l1 l2 : list event) :
  calls_of p (l1 ++ l2) = calls_of p l1 ++ calls_of p l2.
Proof. unfold calls_of. apply List.filter_app. Qed.

Lemma agent_response_app (l1 l2 : list event) :
  agent_response (l1 ++ l2) =
  match agent_response l1 with
  | Some v => Some v
  | None => agent_response l2
  end.
Proof.
  induction l1 as [|[c o] l1 IH]; simpl; auto.
  destruct c; auto. destruct o; auto.
Qed.

Lemma store_calls_app (l1 l2 : list event) :
  store_calls (l1 ++ l2) = store_calls l1 ++ store_calls l2.
Proof.
  induction l1 as [|[c o] l1 IH]; simpl; auto.
  destruct c; simpl; auto. f_equal. auto.
Qed.

Lemma persisted_app (l1 l2 : list event) :
  persisted (l1 ++ l2) = persisted l1 ++ persisted l2.
Proof.
  induction l1 as [|[c o] l1 IH]; simpl; auto.
  destruct c; simpl; auto. destruct o; simpl; auto. f_equal. auto.
Qed.

(** A list of calls of one kind holds no call of a kind disjoint from it. *)
Lemma only_count (p q : call -> bool) (l : list event) :
  only p l = true ->
  (forall c, p c = true -> q c = false) ->
  count_calls q l = 0%nat.
Proof.
  unfold only, count_calls. intros H D.
  induction l as [|[c o] l IH]; simpl in *; auto.
  apply andb_true_iff in H as [Hc Hl]. rewrite (D c Hc). auto.
Qed.

Lemma only_calls_of (p q : call -> bool) (l : list event) :
  only p l = true ->
  (forall c, p c = true -> q c = false) ->
  calls_of q l = [].
Proof.
  unfold only, calls_of. intros H D.
  induction l as [|[c o] l IH]; simpl in *; auto.
  apply andb_true_iff in H as [Hc Hl]. rewrite (D c Hc). auto.
Qed.

Lemma only_calls_of_same (p : call -> bool) (l : list event) :
  only p l = true -> calls_of p l = l.
Proof.
  unfold only, calls_of.
  induction l as [|[c o] l IH]; simpl; auto. intros H.
  apply andb_true_iff in H as [Hc Hl]. simpl in Hc. rewrite Hc.
  f_equal. auto.
Qed.

Lemma only_store_calls (p : call -> bool) (l : list event) :
  only p l = true ->
  (forall c, p c = true -> is_store_outcome c = false) ->
  store_calls l = [] /\ persisted l = [].
Proof.
  unfold only. intros H D.
  induction l as [|[c o] l IH]; simpl in *; auto.
  apply andb_true_iff in H as [Hc Hl]. specialize (D c Hc).
  destruct c; try discriminate; auto.
Qed.

Lemma only_agent_response (p : call -> bool) (l : list event) :
  only p l = true ->
  (forall c, p c = true -> is_agent_run c = false) ->
  agent_response l = None.
Proof.
  unfold only. intros H D.
  induction l as [|[c o] l IH]; simpl in *; auto.
  apply andb_true_iff in H as [Hc Hl]. specialize (D c Hc).
  destruct c; try discriminate; auto.
Qed.

(* ===================================================================== *)
(** ** The steps of [run] *)
(* ===================================================================== *)

(** Case analysis on the next collaborator call, clock reading or test of
    a monadic computation that stands in hypothesis [H]. *)
Ltac split_on H :=
  match type of H with
  | context [match ?x with _ => _ end] =>
      lazymatch x with
      | context [match _ with _ => _ end] => fail
      | _ => let E := fresh "E" in destruct x eqn:E; cbv beta iota in H
      end
  end.

Ltac unfold_monad H :=
  unfold storage_store_outcome, metrics_record_request,
    metrics_record_trace_strip, metrics_record_break_glass,
    attestation_gen_generate, time_now, datetime_now_isoformat,
    bind, try_except, perform, read, ret, raise, lift in H;
  cbv beta iota in H.

Ltac finish H := inversion H; subst; clear H.

Section Steps.
Context {W : Type} (self : BlackBoxWrapper W).

(** [invoke_agent] ends in one of these ways. *)
Lemma invoke_agent_exit task payload kw w o w1 l :
  invoke_agent self task payload kw w = (o, w1, l) ->
  invocation self task payload kw w o w1 l.
Proof.
  intros H. unfold invoke_agent in H. unfold_monad H.
  destruct (agent_run (agent self)) as [f|] eqn:Ef.
  - destruct (call_keywords payload kw) as [kws|] eqn:Ek; cbv beta iota in H.
    + destruct (f task kws w) as [[v|e] wa] eqn:E1; cbv beta iota in H.
      * finish H. eapply invocation_accepted; eauto. discriminate.
      * destruct (is_TypeError e) eqn:Et.
        -- destruct (f task [] wa) as [o2 wb] eqn:E2; cbv beta iota in H.
           finish H. eapply invocation_retried; eauto.
        -- finish H. eapply invocation_accepted; eauto.
           intros e' He'. inversion He'; subst; auto.
    + simpl in H. destruct (f task [] w) as [o2 wb] eqn:E2.
      finish H. eapply invocation_reshaped; eauto.
  - finish H. apply invocation_impossible; auto.
Qed.

(** Conversely, each of them is a run of [invoke_agent]. *)
Lemma exit_invoke_agent task payload kw w o w1 l :
  invocation self task payload kw w o w1 l ->
  invoke_agent self task payload kw w = (o, w1, l).
Proof.
  intros H. unfold invoke_agent, try_except, perform, raise.
  destruct H as [Hf | f kws o w1 Hf Hk E Hn | f kws e w1 o w2 Hf Hk E1 Ht E2
                 | f o w1 Hf Hk E]; rewrite Hf; auto; rewrite Hk.
  - rewrite E. destruct o as [v|e]; auto.
    rewrite (Hn e eq_refl). reflexivity.
  - rewrite E1, Ht, E2. reflexivity.
  - simpl. rewrite E. reflexivity.
Qed.

Lemma invocation_calls task payload kw w o w1 l :
  invocation self task payload kw w o w1 l ->
  only is_agent_run l = true /\
  agent_response l = match o with Ret v => Some v | Raise _ => None end.
Proof.
  intros H. destruct H as [Hf | f kws o w1 Hf Hk E Hn
                           | f kws e w1 o w2 Hf Hk E1 Ht E2
                           | f o w1 Hf Hk E];
    split; try reflexivity; destruct o; reflexivity.
Qed.


Lemma make_attestation_inv bg rid ih oh w o w' l :
  make_attestation self bg rid ih oh w = (o, w', l) ->
  (include_code_sha (policy self) || include_policy_hash (policy self) = false
   /\ o = Ret VNone /\ l = [] /\ w' = w)
  \/ (include_code_sha (policy self) || include_policy_hash (policy self)
      = true
      /\ exists og, l = [(Generate rid ih oh, og)] /\
           match og with
           | Raise e => o = Raise e
           | Ret g =>
               if bg then
                 exists ts,
                   o = setitem g "break_glass" (break_glass_record ts)
               else o = Ret g
           end).
Proof.
  intros H. unfold make_attestation in H. unfold_monad H.
  destruct (include_code_sha (policy self) || include_policy_hash (policy self)).
  - right. split; auto.
    repeat split_on H; finish H; eexists; split; try reflexivity; simpl; eauto.
  - left. finish H. auto.
Qed.

Lemma make_attestation_calls bg rid ih oh w o w' l :
  make_attestation self bg rid ih oh w = (o, w', l) ->
  only is_generate l = true.
Proof.
  intros H. apply make_attestation_inv in H
    as [(_ & _ & -> & _) | (_ & og & -> & _)]; reflexivity.
Qed.

(** The [try] block ends at one of its exits. *)
Lemma run_try_exit t0 bg rid task payload kw w o w' evs :
  run_try self t0 bg rid task payload kw w = (o, w', evs) ->
  try_exit self t0 bg rid task payload kw w o w' evs.
Proof.
  intros H. unfold run_try in H.
  unfold bind at 1 in H.
  destruct (invoke_agent self task payload kw w) as [[[v|e] wa] la] eqn:Ea.
  2:{ finish H. eapply exit_agent; eauto. }
  fold (input_hash_of self task payload) in H.
  destruct (_parse_agent_result v) as [[res tr] cost] eqn:Ep.
  assert (Hres : parsed_result v = res)
    by (unfold parsed_result; rewrite Ep; reflexivity).
  assert (Htr : parsed_traces v = tr)
    by (unfold parsed_traces; rewrite Ep; reflexivity).
  assert (Hcost : parsed_cost v = cost)
    by (unfold parsed_cost; rewrite Ep; reflexivity).
  fold (output_hash_of self res) in H.
  fold (strips self bg) in H.
  unfold_monad H.
  destruct (strips self bg) eqn:Es.
  - destruct (record_trace_strip (metrics self) wa) as [[x|e] ws] eqn:Ex;
      cbv beta iota in H.
    2:{ finish H. eapply exit_strip; eauto. }
    simpl in H.
    destruct (time_time (runtime self) ws) as [now w1] eqn:Et.
    destruct (utc_now_isoformat (runtime self) w1) as [created w2] eqn:Ec.
    cbv beta iota in H.
    destruct (store_outcome (storage self) _ w2) as [[sv|e] w3] eqn:Est;
      cbv beta iota in H.
    2:{ finish H.
        pose proof (exit_store self t0 bg rid task payload kw w v wa la x ws
                      now w1 created w2 e w' Ea) as X.
        rewrite Es in X. unfold strip_calls in X. rewrite Es in X.
        apply X; auto. }
    destruct (record_request (metrics self) _ _ _ w3) as [[mv|e] w4] eqn:Em;
      cbv beta iota in H.
    2:{ finish H.
        pose proof (exit_metrics self t0 bg rid task payload kw w v wa la x ws
                      now w1 created w2 sv w3 e w' Ea) as X.
        rewrite Es in X. unfold strip_calls in X. rewrite Es in X.
        apply X; auto. }
    destruct (make_attestation self bg rid _ _ w4) as [[oa w5] latt] eqn:Eatt.
    subst res cost tr.
    pose proof (exit_after_metrics self t0 bg rid task payload kw w v wa la x
                  ws now w1 created w2 sv w3 mv w4 oa w5 latt Ea) as X.
    rewrite Es in X. unfold strip_calls, success_result in X.
    rewrite Es in X. specialize (X Ex Et Ec Est Em Eatt).
    destruct oa as [att|e]; cbv beta iota in H; finish H;
      simpl; simpl in X; rewrite ?List.app_nil_r;
      unfold visible_result in X; exact X.
  - simpl in H.
    destruct (time_time (runtime self) wa) as [now w1] eqn:Et.
    destruct (utc_now_isoformat (runtime self) w1) as [created w2] eqn:Ec.
    cbv beta iota in H.
    destruct (store_outcome (storage self) _ w2) as [[sv|e] w3] eqn:Est;
      cbv beta iota in H.
    2:{ finish H.
        pose proof (exit_store self t0 bg rid task payload kw w v wa la VNone
                      wa now w1 created w2 e w' Ea) as X.
        rewrite Es in X. unfold strip_calls in X. rewrite Es in X.
        apply X; auto. }
    destruct (record_request (metrics self) _ _ _ w3) as [[mv|e] w4] eqn:Em;
      cbv beta iota in H.
    2:{ finish H.
        pose proof (exit_metrics self t0 bg rid task payload kw w v wa la
                      VNone wa now w1 created w2 sv w3 e w' Ea) as X.
        rewrite Es in X. unfold strip_calls in X. rewrite Es in X.
        apply X; auto. }
    destruct (make_attestation self bg rid _ _ w4) as [[oa w5] latt] eqn:Eatt.
    subst res cost tr.
    pose proof (exit_after_metrics self t0 bg rid task payload kw w v wa la
                  VNone wa now w1 created w2 sv w3 mv w4 oa w5 latt Ea) as X.
    rewrite Es in X. unfold strip_calls, success_result in X.
    rewrite Es in X. specialize (X eq_refl Et Ec Est Em Eatt).
    destruct oa as [att|e]; cbv beta iota in H; finish H;
      simpl; simpl in X; rewrite ?List.app_nil_r;
      unfold visible_result in X; exact X.
Qed.

End Steps.

Section Runs.
Context {W : Type} (self : BlackBoxWrapper W).

(** The [except] block ends at one of its exits. *)
Lemma run_except_exit t0 rid e w o w' l :
  run_except self t0 rid e w = (o, w', l) ->
  except_exit self t0 rid e w o w' l.
Proof.
  intros H. unfold run_except in H. unfold_monad H.
  destruct (time_time (runtime self) w) as [now w1] eqn:Et.
  destruct (utc_now_isoformat (runtime self) w1) as [created w2] eqn:Ec.
  cbv beta iota in H.
  destruct (store_outcome (storage self) _ w2) as [[sv|e'] w3] eqn:Es;
    cbv beta iota in H.
  2:{ finish H. eapply handler_store_raises; eauto. }
  destruct (record_request (metrics self) _ _ _ w3) as [om w4] eqn:Em.
  pose proof (handler_after_store self t0 rid e w now w1 created w2 sv w3 om
                w4 Et Ec Es Em) as X.
  destruct om as [mv|e']; cbv beta iota in H; finish H; exact X.
Qed.

(** [run] ends at one of its exits. *)
Lemma run_exits rid task payload kw w o w' evs :
  run self rid task payload kw w = (o, w', evs) ->
  run_exit self rid task payload kw w o w' evs.
Proof.
  intros H. unfold run in H.
  fold (is_glass self rid) in H.
  unfold time_now, read in H. unfold bind at 1 in H.
  destruct (time_time (runtime self) w) as [t0 w0] eqn:Et.
  cbv beta iota in H. unfold bind at 1 in H.
  assert (G : exists x w1 lg,
             (if is_glass self rid
              then metrics_record_break_glass self else ret VNone) w0
             = (x, w1, lg) /\
             match x with
             | Ret v =>
                 (if is_glass self rid
                  then record_break_glass (metrics self) w0 = (Ret v, w1)
                  else w1 = w0) /\
                 lg = break_glass_calls self rid (Ret v)
             | Raise e =>
                 is_glass self rid = true /\
                 record_break_glass (metrics self) w0 = (Raise e, w1) /\
                 lg = [(RecordBreakGlass, Raise e)]
             end).
  { unfold break_glass_calls, metrics_record_break_glass, perform, ret.
    destruct (is_glass self rid).
    - destruct (record_break_glass (metrics self) w0) as [[v|e] w1] eqn:Eg;
        do 3 eexists; split; try reflexivity; simpl; auto.
    - do 3 eexists; split; try reflexivity; simpl; auto. }
  destruct G as (x & w1 & lg & Eg & Hg). rewrite Eg in H.
  destruct x as [v|e]; cbv beta iota in H.
  2:{ destruct Hg as (Hb & Hr & ->). finish H. simpl.
      eapply run_glass_raises; eauto. }
  destruct Hg as (Hr & ->).
  unfold try_except in H.
  destruct (run_try self t0 (is_glass self rid) rid task
              (payload_or_empty payload) kw w1) as [[ot wt] lt] eqn:Etry.
  apply run_try_exit in Etry.
  destruct ot as [res|e].
  - finish H. simpl. eapply run_try_ends; eauto. discriminate.
  - destruct (is_Exception e) eqn:Ee.
    + destruct (run_except self t0 rid e wt) as [[o2 w2] le] eqn:Ex.
      apply run_except_exit in Ex. finish H. simpl.
      eapply run_handles; eauto.
    + finish H. simpl. eapply run_try_ends; eauto.
      intros e' He'. inversion He'; subst; auto.
Qed.

End Runs.

(* ===================================================================== *)
(** ** Automation for the case analysis of a run *)
(* ===================================================================== *)

Lemma is_glass_true {W} (self : BlackBoxWrapper W) (rid : string) :
  is_glass self rid = true <-> rid ∈ break_glass_request_ids (policy self).
Proof. unfold is_glass. apply bool_decide_eq_true. Qed.

Lemma is_glass_false {W} (self : BlackBoxWrapper W) (rid : string) :
  is_glass self rid = false <-> rid ∉ break_glass_request_ids (policy self).
Proof. unfold is_glass. apply bool_decide_eq_false. Qed.

(** What the calls of the agent's invocation and of the attestation step
    look like to the readers of a call list. *)
Lemma invoke_agent_calls {W} (self : BlackBoxWrapper W) task payload kw w o
      w1 l :
  invoke_agent self task payload kw w = (o, w1, l) ->
  only is_agent_run l = true /\
  agent_response l = match o with Ret v => Some v | Raise _ => None end.
Proof.
  intros H. eapply invocation_calls, invoke_agent_exit, H.
Qed.

Ltac unfold_goal_monad :=
  unfold storage_store_outcome, metrics_record_request,
    metrics_record_trace_strip, metrics_record_break_glass,
    attestation_gen_generate, time_now, datetime_now_isoformat,
    bind, try_except, perform, read, ret, raise, lift;
  cbv beta iota.

Ltac disjoint_kinds :=
  let c := fresh "c" in intros c; destruct c; simpl; congruence.

(** Rewrites the readers of call lists over the pieces of a run. *)
Ltac read_calls :=
  unfold break_glass_calls, strip_calls;
  repeat rewrite ?count_calls_app, ?agent_response_app, ?store_calls_app,
    ?persisted_app, ?calls_of_app;
  repeat match goal with
    | Hl : only ?p ?l = true |- context [count_calls ?q ?l] =>
        rewrite (only_count p q l Hl) by disjoint_kinds
    | Hl : only ?p ?l = true |- context [store_calls ?l] =>
        rewrite (proj1 (only_store_calls p l Hl ltac:(disjoint_kinds)))
    | Hl : only ?p ?l = true |- context [persisted ?l] =>
        rewrite (proj2 (only_store_calls p l Hl ltac:(disjoint_kinds)))
    | Hl : only ?p ?l = true |- context [agent_response ?l] =>
        rewrite (only_agent_response p l Hl) by disjoint_kinds
    | Hl : only ?p ?l = true |- context [calls_of ?p ?l] =>
        rewrite (only_calls_of_same p l Hl)
    | Hl : only ?p ?l = true |- context [calls_of ?q ?l] =>
        rewrite (only_calls_of p q l Hl) by disjoint_kinds
    | Hr : agent_response ?l = _ |- context [agent_response ?l] =>
        rewrite Hr
    end.

(** Brings the facts about the agent's and the attestation step's calls
    into the context. *)
Ltac call_facts :=
  repeat match goal with
    | H : invoke_agent _ _ _ _ _ = (_, _, _) |- _ =>
        let Ho := fresh "Hagent" in
        let Hr := fresh "Hresp" in
        destruct (invoke_agent_calls _ _ _ _ _ _ _ _ H) as [Ho Hr];
        cbv beta iota in Hr; clear H
    | H : make_attestation _ _ _ _ _ _ = (_, _, _) |- _ =>
        let Ho := fresh "Hgen" in
        pose proof (make_attestation_calls _ _ _ _ _ _ _ _ _ H) as Ho;
        apply make_attestation_inv in H
    end.

(** Case analysis on where a run ended: [H] is an equation
    [run self ... w = (o, w', evs)]. *)
Ltac exits H :=
  apply run_exits in H; inversion H; subst; clear H;
  repeat match goal with
    | Ht : try_exit _ _ _ _ _ _ _ _ _ _ _ |- _ =>
        inversion Ht; subst; clear Ht
    | He : except_exit _ _ _ _ _ _ _ _ |- _ =>
        inversion He; subst; clear He
    | H' : match ?oa with Ret _ => _ | Raise _ => _ end = Raise _ |- _ =>
        destruct oa; [discriminate H' | inversion H'; subst; clear H']
    | H' : Raise _ = match ?oa with Ret _ => _ | Raise _ => _ end |- _ =>
        destruct oa; [discriminate H' | inversion H'; subst; clear H']
    | H' : match ?oa with Ret _ => _ | Raise _ => _ end = Ret _ |- _ =>
        destruct oa; [inversion H'; subst; clear H' | discriminate H']
    | H' : Ret _ = match ?oa with Ret _ => _ | Raise _ => _ end |- _ =>
        destruct oa; [inversion H'; subst; clear H' | discriminate H']
    end.

Section Claims.
Context {W : Type} (self : BlackBoxWrapper W).

(** C1 (black-box suppression).  In black-box mode and outside break-glass,
    once the agent has returned normally the trace-strip event has been
    recorded exactly once and a result handed back carries no traces.  When
    black-box mode is off or the request is under break-glass, a successful
    run makes no trace-strip call and hands back the traces of the parsed
    agent response unchanged. *)
Theorem black_box_suppression rid task payload kw w o w' evs :
  run self rid task payload kw w = (o, w', evs) ->
  (black_box (policy self) = true ->
   rid ∉ break_glass_request_ids (policy self) ->
   forall v, agent_response evs = Some v ->
     count_calls is_trace_strip evs = 1%nat /\
     forall res, o = Ret res -> traces res = VNone)
  /\
  (black_box (policy self) = false \/
   rid ∈ break_glass_request_ids (policy self) ->
   forall res, o = Ret res -> status res = "success"%string ->
     exists v,
       agent_response evs = Some v /\
       traces res = parsed_traces v /\
       count_calls is_trace_strip evs = 0%nat).
Proof.
  intros H. split.
  - intros Hbb Hng v Hv. apply is_glass_false in Hng.
    assert (Hs : strips self (is_glass self rid) = true)
      by (unfold strips; rewrite Hbb, Hng; reflexivity).
    exits H; try congruence; call_facts; revert Hv; read_calls;
      rewrite ?Hs, ?Hng; simpl; try discriminate; intros Hv;
      (split; [reflexivity|]); intros res Hres;
      try discriminate Hres.
    all: idtac.
    + destruct oa; inversion Hres; subst; simpl.
      rewrite Hng in Hs. rewrite Hs. reflexivity.
    + destruct om; inversion Hres; subst; reflexivity.
    + destruct om; inversion Hres; subst; reflexivity.
    + destruct om; inversion Hres; subst; reflexivity.
    + destruct om; inversion Hres; subst; reflexivity.
  - intros Hoff res Hres Hst.
    assert (Hs : strips self (is_glass self rid) = false).
    { unfold strips. destruct Hoff as [Hbb|Hg].
      - rewrite Hbb. reflexivity.
      - apply is_glass_true in Hg. rewrite Hg. apply andb_false_r. }
    subst o.
    exits H; call_facts; try discriminate.
    eexists. read_calls. unfold success_result. rewrite Hs. simpl.
    destruct (is_glass self rid); simpl; auto.
Qed.

(** C2 (break-glass exemption).  For a request under break-glass the
    break-glass event is recorded, first of all calls and once; a
    successful run hands back the traces of the parsed agent response
    unchanged, whatever [black_box] says; and when the policy asks for an
    attestation, the attestation handed back holds the [break_glass]
    sub-record, whose [enabled] field is [True]. *)
Theorem break_glass_exemption rid task payload kw w o w' evs :
  rid ∈ break_glass_request_ids (policy self) ->
  run self rid task payload kw w = (o, w', evs) ->
  (exists ob, head evs = Some (RecordBreakGlass, ob)) /\
  count_calls is_break_glass_call evs = 1%nat /\
  forall res, o = Ret res -> status res = "success"%string ->
    (exists v, agent_response evs = Some v /\ traces res = parsed_traces v) /\
    (include_code_sha (policy self) || include_policy_hash (policy self)
     = true ->
     count_calls is_generate evs = 1%nat /\
     exists ts,
       field (attestation res) "break_glass" = Some (break_glass_record ts) /\
       field (break_glass_record ts) "enabled" = Some (VBool true)) /\
    (include_code_sha (policy self) || include_policy_hash (policy self)
     = false ->
     count_calls is_generate evs = 0%nat /\ attestation res = VNone).
Proof.
  intros Hg H. apply is_glass_true in Hg.
  assert (Hs : strips self (is_glass self rid) = false)
    by (unfold strips; rewrite Hg; apply andb_false_r).
  split; [|split].
  - exits H; unfold break_glass_calls; rewrite ?Hg; simpl; eauto.
  - exits H; call_facts; read_calls; rewrite ?Hs, ?Hg; simpl;
      try reflexivity;
      repeat match goal with
        | H' : _ \/ _ |- _ => destruct H' as [(_ & _ & -> & _)|(_ & ? & -> & _)]
        end; reflexivity.
  - intros res -> Hst.
    exits H; call_facts; try discriminate.
    split; [|split].
    + eexists. read_calls. unfold success_result. rewrite ?Hs, ?Hg. simpl. auto.
    + intros Hf. read_calls. rewrite ?Hs, ?Hg. simpl.
      match goal with
      | H' : _ \/ _ |- _ =>
          destruct H' as [(Hf' & _)|(_ & og & -> & Hog)]; [congruence|]
      end.
      split; [reflexivity|].
      destruct og as [g|e]; [|discriminate].
      rewrite Hg in Hog. destruct Hog as [ts Hts]. exists ts.
      destruct g; try discriminate. simpl in Hts. inversion Hts; subst.
      split; [|reflexivity]. simpl. apply dict_lookup_set_eq.
    + intros Hf. read_calls. rewrite ?Hs, ?Hg. simpl.
      match goal with
      | H' : _ \/ _ |- _ =>
          destruct H' as [(_ & Hoa & -> & _)|(Hf' & _)]; [|congruence]
      end.
      inversion Hoa; subst. split; reflexivity.
Qed.

(** [run] is its prologue followed by the guarded block. *)
Lemma run_of_prologue rid task payload kw w t0 bg w1 lp :
  run_prologue self rid w = (Ret (t0, bg), w1, lp) ->
  run self rid task payload kw w =
  match try_except
          (run_try self t0 bg rid task (payload_or_empty payload) kw)
          is_Exception (run_except self t0 rid) w1 with
  | (o, w2, l) => (o, w2, lp ++ l)
  end.
Proof.
  intros H. unfold run. unfold run_prologue in H.
  unfold time_now, read in *. unfold bind at 1. unfold bind at 1 in H.
  destruct (time_time (runtime self) w) as [t w0].
  cbv beta iota in *. unfold bind at 1. unfold bind at 1 in H.
  destruct ((if bool_decide (rid ∈ break_glass_request_ids (policy self))
             then metrics_record_break_glass self else ret VNone) w0)
    as [[[x|e] wg] lg]; cbv beta iota in *; [|discriminate].
  unfold ret in H. inversion H; subst; clear H.
  rewrite List.app_nil_r.
  destruct (try_except _ _ _ w1) as [[o w2] l]. reflexivity.
Qed.

(** When the break-glass notification raises, so does [run]. *)
Lemma run_prologue_raises rid task payload kw w e w1 lp :
  run_prologue self rid w = (Raise e, w1, lp) ->
  run self rid task payload kw w = (Raise e, w1, lp) /\
  lp = [(RecordBreakGlass, Raise e)].
Proof.
  intros H. unfold run. unfold run_prologue in H.
  unfold time_now, read in *. unfold bind at 1. unfold bind at 1 in H.
  destruct (time_time (runtime self) w) as [t w0].
  cbv beta iota in *. unfold bind at 1. unfold bind at 1 in H.
  destruct (bool_decide (rid ∈ break_glass_request_ids (policy self))).
  - unfold metrics_record_break_glass, perform in *.
    destruct (record_break_glass (metrics self) w0) as [[x|e0] wg];
      cbv beta iota in *.
    + unfold ret in H. discriminate H.
    + inversion H; subst. auto.
  - unfold ret in H. cbv beta iota in H. discriminate H.
Qed.

(** C3 (error containment), amended.  Suppose the guarded block of [run]
    (the agent's invocation or any later step before the result is built)
    raises.  If the exception is of class [Exception] and the two calls of
    the error path, the write of the error record and the notification of
    the failed request, return normally, [run] raises nothing: it
    computes the latency up to the failure, persists an outcome record of
    status [error] with the failure's description, records a failed
    request of cost zero, and returns a result of status [error] whose
    [result] and [attestation] are [{"error": description}], without
    traces and without hashes.  An exception does leave [run] when it is
    raised by the write of the error record, by the notification of the
    failed request, or by the break-glass notification made before the
    guarded block, and when the guarded block raises one that is not of
    class [Exception]. *)
Theorem error_containment rid task payload kw w :
  (forall e w1 lp,
     run_prologue self rid w = (Raise e, w1, lp) ->
     run self rid task payload kw w = (Raise e, w1, lp) /\
     lp = [(RecordBreakGlass, Raise e)]) /\
  (forall t0 bg w1 lp e wt lt now w2 created w3 os w4,
     run_prologue self rid w = (Ret (t0, bg), w1, lp) ->
     run_try self t0 bg rid task (payload_or_empty payload) kw w1
     = (Raise e, wt, lt) ->
     time_time (runtime self) wt = (now, w2) ->
     utc_now_isoformat (runtime self) w2 = (created, w3) ->
     store_outcome (storage self)
       (error_record rid e (elapsed_ms t0 now) created) w3 = (os, w4) ->
     let latency := elapsed_ms t0 now in
     let record := error_record rid e latency created in
     (is_Exception e = false ->
      run self rid task payload kw w = (Raise e, wt, lp ++ lt)) /\
     (is_Exception e = true ->
      field record "status" = Some (VStr "error") /\
      field record "error" = Some (VStr (exc_str e)) /\
      (forall e', os = Raise e' ->
         run self rid task payload kw w
         = (Raise e', w4, lp ++ lt ++ [(StoreOutcome record, Raise e')])) /\
      (forall sv om w5,
         os = Ret sv ->
         record_request (metrics self) "error" latency (VInt 0) w4
         = (om, w5) ->
         (forall e', om = Raise e' ->
            run self rid task payload kw w
            = (Raise e', w5,
               lp ++ lt ++
               [(StoreOutcome record, Ret sv);
                (RecordRequest "error" latency (VInt 0), Raise e')])) /\
         (forall mv, om = Ret mv ->
            exists res,
              run self rid task payload kw w
              = (Ret res, w5,
                 lp ++ lt ++
                 [(StoreOutcome record, Ret sv);
                  (RecordRequest "error" latency (VInt 0), Ret mv)]) /\
              request_id res = rid /\
              status res = "error"%string /\
              result res = VDict [item "error" (VStr (exc_str e))] /\
              traces res = VNone /\
              latency_ms res = latency /\
              cost_cents res = VInt 0 /\
              input_hash res = None /\
              output_hash res = None /\
              attestation res = VDict [item "error" (VStr (exc_str e))])))).
Proof.
  split; [intros e w1 lp; apply run_prologue_raises|].
  intros t0 bg w1 lp e wt lt now w2 created w3 os w4 Hp Ht Hnow Hiso Hs.
  cbv zeta.
  rewrite (run_of_prologue rid task payload kw w t0 bg w1 lp Hp).
  unfold try_except. rewrite Ht.
  split; intros He; rewrite He; [reflexivity|].
  split; [reflexivity|]. split; [reflexivity|].
  unfold run_except. unfold_goal_monad. rewrite Hnow, Hiso. cbv beta iota.
  rewrite Hs.
  split.
  - intros e' ->. reflexivity.
  - intros sv om w5 -> Hm. cbv beta iota. rewrite Hm.
    split.
    + intros e' ->. reflexivity.
    + intros mv ->. eexists. split; [reflexivity|].
      repeat split; reflexivity.
Qed.

(** What a run that reports success has done. *)
Lemma run_success rid task payload kw w res w' evs :
  run self rid task payload kw w = (Ret res, w', evs) ->
  status res = "success"%string ->
  exists v latency created sv att,
    agent_response evs = Some v /\
    res = success_result self (is_glass self rid) rid task
            (payload_or_empty payload) v latency att /\
    store_calls evs =
    [(success_record rid (input_hash res) (output_hash res) latency
        (cost_cents res) created, Ret sv)] /\
    persisted evs =
    [success_record rid (input_hash res) (output_hash res) latency
       (cost_cents res) created].
Proof.
  intros H Hst. exits H; call_facts; try discriminate.
  do 5 eexists. split; [|split; [reflexivity|]].
  - read_calls. destruct (is_glass self rid), (strips self _); reflexivity.
  - read_calls.
    destruct (is_glass self rid), (strips self _); simpl; split; reflexivity.
Qed.

(** What a run that reports an error hands back. *)
Lemma run_error rid task payload kw w res w' evs :
  run self rid task payload kw w = (Ret res, w', evs) ->
  status res = "error"%string ->
  exists e latency, is_Exception e = true /\ res = error_result rid e latency.
Proof.
  intros H Hst. exits H; call_facts; try discriminate; eauto.
Qed.

Lemma run_status rid task payload kw w res w' evs :
  run self rid task payload kw w = (Ret res, w', evs) ->
  status res = "success"%string \/ status res = "error"%string.
Proof.
  intros H. exits H; auto.
Qed.

(** C4 (hash gating), amended.  In a result of status [success] the two
    hashes are present exactly when [keep_hashes] is set; the input hash is
    the digest of the redacted task and payload and of nothing else, the
    output hash the digest of the parsed result of the agent's response,
    so equal inputs give equal hashes; and a hash that is present is a
    hex-encoded SHA-256 digest.  A result of status [error] carries no
    hash, whatever [keep_hashes] says. *)
Theorem hash_gating rid task payload kw w res w' evs :
  run self rid task payload kw w = (Ret res, w', evs) ->
  (status res = "success"%string ->
   (input_hash res <> None <-> keep_hashes (policy self) = true) /\
   (output_hash res <> None <-> keep_hashes (policy self) = true) /\
   input_hash res = input_hash_of self task (payload_or_empty payload) /\
   (exists v, agent_response evs = Some v /\
              output_hash res = output_hash_of self (parsed_result v)) /\
   (forall h, input_hash res = Some h \/ output_hash res = Some h ->
              is_sha256_hex h = true)) /\
  (status res = "error"%string ->
   input_hash res = None /\ output_hash res = None).
Proof.
  intros H. split; intros Hst.
  - destruct (run_success _ _ _ _ _ _ _ _ H Hst)
      as (v & latency & created & sv & att & Hv & -> & _).
    unfold success_result, input_hash_of, output_hash_of. simpl.
    destruct (keep_hashes (policy self)); simpl.
    + repeat split; try congruence; eauto.
      intros h [Hh|Hh]; inversion Hh; apply hexdigest_is_sha256_hex.
    + repeat split; try congruence; eauto.
      intros h [Hh|Hh]; discriminate.
  - destruct (run_error _ _ _ _ _ _ _ _ H Hst) as (e & latency & _ & ->).
    split; reflexivity.
Qed.

(** C6 (outcome record), amended.  A run that reports success has made
    exactly one call to [store_outcome], which returned normally; the
    record it persisted holds the fields [request_id], [status],
    [input_hash], [output_hash], [latency_ms], [cost_cents] and
    [created_at], with the values of the result handed back, and no
    [attestation] field. *)
Theorem outcome_record rid task payload kw w res w' evs :
  run self rid task payload kw w = (Ret res, w', evs) ->
  status res = "success"%string ->
  exists record,
    persisted evs = [record] /\
    map fst (store_calls evs) = [record] /\
    dict_keys record =
    map VStr ["request_id"; "status"; "input_hash"; "output_hash";
              "latency_ms"; "cost_cents"; "created_at"]%string /\
    field record "request_id" = Some (VStr (request_id res)) /\
    field record "status" = Some (VStr (status res)) /\
    field record "input_hash" = Some (opt_str (input_hash res)) /\
    field record "output_hash" = Some (opt_str (output_hash res)) /\
    field record "latency_ms" = Some (VInt (latency_ms res)) /\
    field record "cost_cents" = Some (cost_cents res) /\
    (exists created, field record "created_at" = Some (VStr created)) /\
    field record "attestation" = None.
Proof.
  intros H Hst.
  destruct (run_success _ _ _ _ _ _ _ _ H Hst)
    as (v & latency & created & sv & att & Hv & Hres & Hsc & Hp).
  eexists. split; [exact Hp|]. rewrite Hsc.
  rewrite Hres. simpl. repeat split; eauto.
Qed.

(** C8 (hash before redaction).  In a successful run with [keep_hashes]
    set, the output hash is the digest of the parsed result as the agent
    returned it, while the result handed back is that parsed result passed
    through the redactor when the enhanced redactor is in use (and
    untouched otherwise): redaction comes after hashing. *)
Theorem hash_before_redaction rid task payload kw w res w' evs :
  run self rid task payload kw w = (Ret res, w', evs) ->
  status res = "success"%string ->
  keep_hashes (policy self) = true ->
  exists v,
    agent_response evs = Some v /\
    output_hash res = Some (_compute_hash self (parsed_result v)) /\
    result res = (if use_enhanced_pii self
                  then pii_redactor self (parsed_result v)
                  else parsed_result v).
Proof.
  intros H Hst Hk.
  destruct (run_success _ _ _ _ _ _ _ _ H Hst)
    as (v & latency & created & sv & att & Hv & -> & _).
  exists v. unfold success_result, output_hash_of, visible_result. simpl.
  rewrite Hk. auto.
Qed.


(** C10 (a failed success-path write), amended.  Suppose the first call to
    [store_outcome], with the record of status [success], raises an
    exception of class [Exception].  Then the agent had returned, and
    [run] makes a second call to [store_outcome] with a record of status
    [error] for the same request, which carries the description of the
    failure.  If that second write raises, its exception leaves [run].
    If it returns, the failed request is notified to the metrics, and
    [run] hands back the error result, in which the agent's result is
    nowhere to be found, unless that notification raises in its turn. *)
Theorem failed_write_is_reported rid task payload kw w o w' evs r e rest :
  run self rid task payload kw w = (o, w', evs) ->
  store_calls evs = (r, Raise e) :: rest ->
  field r "status" = Some (VStr "success") ->
  is_Exception e = true ->
  (exists v, agent_response evs = Some v) /\
  exists latency created o2,
    rest = [(error_record rid e latency created, o2)] /\
    field (error_record rid e latency created) "request_id"
    = field r "request_id" /\
    field (error_record rid e latency created) "status"
    = Some (VStr "error") /\
    match o2 with
    | Raise e2 =>
        o = Raise e2 /\ calls_of is_record_request evs = []
    | Ret _ =>
        exists om,
          calls_of is_record_request evs
          = [(RecordRequest "error" latency (VInt 0), om)] /\
          o = match om with
              | Ret _ => Ret (error_result rid e latency)
              | Raise e3 => Raise e3
              end
    end.
Proof.
  intros H Hsc Hst He.
  exits H; call_facts; revert Hsc; read_calls;
    try match goal with
      | |- context [strips self ?b] => destruct (strips self b)
      end;
    destruct (is_glass self rid); simpl;
    intros Hsc; inversion Hsc; subst; clear Hsc;
    try (simpl in Hst; discriminate Hst);
    try match goal with
      | Hn : forall e0, Raise ?e = Raise e0 -> is_Exception e0 = false |- _ =>
          rewrite (Hn e eq_refl) in He; discriminate He
      end;
    (split; [eauto|]); do 3 eexists;
    (split; [reflexivity|]); (split; [reflexivity|]);
    (split; [reflexivity|]); simpl; eauto.
Qed.

End Claims.

(* ===================================================================== *)
(** ** The classification of agent responses *)
(* ===================================================================== *)

(** C5 (classification of the agent's response), amended.  A response
    that is no mapping becomes the result as a whole, without traces and
    at cost [0.0].  Of a mapping, the result is the value under [result],
    or the whole mapping when it has no such key; the traces are the value
    under [traces], absent when there is none, and the cost is the value
    under [cost_cents], [0.0] when there is none: both are read whether or
    not the mapping has a [result] key. *)
Theorem parse_agent_result_classification (v : value) :
  match v with
  | VDict d =>
      parsed_result v
      = match dict_lookup d "result" with Some r => r | None => v end /\
      parsed_traces v
      = match dict_lookup d "traces" with Some t => t | None => VNone end /\
      parsed_cost v
      = match dict_lookup d "cost_cents" with
        | Some c => c
        | None => VFloat 0
        end
  | _ => _parse_agent_result v = (v, VNone, VFloat 0)
  end.
Proof.
  destruct v; try reflexivity.
  unfold parsed_result, parsed_traces, parsed_cost, _parse_agent_result,
    dict_get. simpl. repeat split; reflexivity.
Qed.

(** A mapping without a [result] key is taken as the result, but its
    traces and its cost are not discarded. *)
Lemma mapping_without_result_keeps_traces_and_cost :
  field Demo.bare_response "result" = None /\
  _parse_agent_result Demo.bare_response
  = (Demo.bare_response, VList [VStr "a"], VInt 5) /\
  parsed_traces Demo.bare_response <> VNone /\
  parsed_cost Demo.bare_response <> VFloat 0.
Proof. repeat split; try reflexivity; discriminate. Qed.

(** The response of [test_trace_debug.py], whose key is [trace] and not
    [traces], has no traces for the wrapper. *)
Example debug_agent_response :
  _parse_agent_result
    (VDict [item "status" (VStr "success");
            item "result" (VStr "test output");
            item "trace" (VList [VStr "step1"; VStr "step2"; VStr "step3"])])
  = (VStr "test output", VNone, VFloat 0).
Proof. reflexivity. Qed.

(* ===================================================================== *)
(** ** Idempotence of redaction *)
(* ===================================================================== *)




Example redact_digits :
  Redaction.redact [Demo.DIGITS]
    (VDict [item "phone" (VStr "call 555 0199");
            item "tries" (VList [VInt 3; VStr "7 times"])])
  = VDict [item "phone" (VStr "call [DIGITS_REDACTED] [DIGITS_REDACTED]");
           item "tries" (VList [VInt 3; VStr "[DIGITS_REDACTED] times"])].
Proof. vm_compute. reflexivity. Qed.

(** The sample catalogue on the chat log of the demonstration. *)
Example redact_chat_log :
  Redaction.redact Demo.patterns
    (VStr "My email is john.doe@example.com, my full SSN is 123-45-6789")
  = VStr "My email is [EMAIL_REDACTED], my full SSN is [SSN_REDACTED]"
  /\ Redaction.clean Demo.patterns
       (VStr "My email is [EMAIL_REDACTED], my full SSN is [SSN_REDACTED]")
     = true.
Proof. vm_compute. split; reflexivity. Qed.

(** A rule that finds its own marker makes redaction grow the text at
    every pass. *)
Example rule_matching_markers_breaks_idempotence :
  Redaction.redact [Demo.SHOUT] (VStr "HI") = VStr "[SHOUT_REDACTED]" /\
  Redaction.redact [Demo.SHOUT] (VStr "[SHOUT_REDACTED]")
  = VStr "[[SHOUT_REDACTED]_[SHOUT_REDACTED]]".
Proof. vm_compute. split; reflexivity. Qed.

(* ===================================================================== *)
(** ** The properties on concrete runs *)
(* ===================================================================== *)

(** The scenario of the specification: the agent answers
    [{"result": "ok", "traces": ["a", "b"], "cost_cents": 1.5}] under a
    policy with [black_box] and [keep_hashes].  The clock reads [1.0] and
    then [1.007]: in floating point the latency is 6 milliseconds. *)
Example scenario_result :
  fst (fst Demo.scenario_run)
  = Ret (mkResult "r1" "success" (VStr "ok") VNone 6 (VFloat (3 # 2))
           (Some (Sha256.hexdigest
                    "{'task': 'get weather', 'payload': {}}"))
           (Some (Sha256.hexdigest "ok"))
           VNone).
Proof. vm_compute. reflexivity. Qed.

Lemma black_box_suppression_witness :
  count_calls is_trace_strip (snd Demo.scenario_run) = 1%nat /\
  forall res, fst (fst Demo.scenario_run) = Ret res -> traces res = VNone.
Proof.
  assert (H : run Demo.scenario "r1" "get weather" None [] Demo.start
              = (fst (fst Demo.scenario_run), snd (fst Demo.scenario_run),
                 snd Demo.scenario_run))
    by (vm_compute; reflexivity).
  assert (N : "r1"%string ∉ break_glass_request_ids (policy Demo.scenario))
    by (apply is_glass_false; vm_compute; reflexivity).
  assert (R : agent_response (snd Demo.scenario_run)
              = Some Demo.scenario_response) by (vm_compute; reflexivity).
  pose proof (black_box_suppression Demo.scenario _ _ _ _ _ _ _ _ H) as X.
  destruct X as [A _].
  exact (A eq_refl N Demo.scenario_response R).
Defined.

Lemma break_glass_exemption_witness :
  (exists ob, head (snd Demo.glass_run) = Some (RecordBreakGlass, ob)) /\
  count_calls is_break_glass_call (snd Demo.glass_run) = 1%nat /\
  exists res,
    fst (fst Demo.glass_run) = Ret res /\
    traces res = VList [VStr "a"; VStr "b"] /\
    exists ts,
      field (attestation res) "break_glass" = Some (break_glass_record ts) /\
      field (break_glass_record ts) "enabled" = Some (VBool true).
Proof.
  assert (H : run Demo.glass "incident-7" "get weather"
                (Some [item "email" (VStr "a@b.com")])
                [("city"%string, VStr "Tokyo")] Demo.start
              = (fst (fst Demo.glass_run), snd (fst Demo.glass_run),
                 snd Demo.glass_run))
    by (vm_compute; reflexivity).
  assert (G : "incident-7"%string
              ∈ break_glass_request_ids (policy Demo.glass))
    by (apply is_glass_true; vm_compute; reflexivity).
  destruct (break_glass_exemption Demo.glass _ _ _ _ _ _ _ _ G H)
    as (A & B & C).
  split; [exact A|]. split; [exact B|].
  assert (R : exists res, fst (fst Demo.glass_run) = Ret res /\
                          status res = "success"%string)
    by (vm_compute; eexists; split; reflexivity).
  destruct R as (res & Hres & Hst).
  destruct (C res Hres Hst) as ((v & Hv & Ht) & D & _).
  exists res. split; [exact Hres|]. split.
  - assert (V : agent_response (snd Demo.glass_run)
                = Some Demo.scenario_response) by (vm_compute; reflexivity).
    rewrite V in Hv. inversion Hv; subst v. rewrite Ht. reflexivity.
  - apply D. reflexivity.
Defined.

(** C3 as stated fails: the agent raises an ordinary exception, the
    storage backend is unreachable, and the exception of the error-path
    write leaves [run]. *)
Lemma exception_escapes_run :
  exists w' evs,
    Demo.crashed_offline_run = (Raise Demo.connection_refused, w', evs) /\
    calls_of is_agent_run evs
    = [(AgentRun "get weather" [], Raise Demo.boom)].
Proof. vm_compute. do 2 eexists. split; reflexivity. Qed.

(** An exception outside [Exception] is not caught either, and neither is
    a failure of the break-glass notification. *)
Example cancellation_leaves_run :
  fst (fst (run (Demo.wrapper (Demo.failing (mkExn ExcBase "cancelled"))
                              Demo.strict true)
                "r1" "get weather" None [] Demo.start))
  = Raise (mkExn ExcBase "cancelled").
Proof. vm_compute. reflexivity. Qed.

Example break_glass_failure_leaves_run :
  run (Demo.wrapper_on Demo.memory_storage Demo.broken_metrics
         (Demo.answering Demo.scenario_response) Demo.strict_with_glass true)
      "incident-7" "get weather" None [] Demo.start
  = (Raise (mkExn ExcOther "metrics backend down"),
     Demo.mkWorld 1007 [] 0, [(RecordBreakGlass,
                                 Raise (mkExn ExcOther "metrics backend down"))]).
Proof. vm_compute. reflexivity. Qed.

Lemma error_containment_witness :
  exists res w' evs,
    Demo.crashed_run = (Ret res, w', evs) /\
    status res = "error"%string /\
    result res = VDict [item "error" (VStr "boom")] /\
    traces res = VNone /\
    input_hash res = None /\
    output_hash res = None /\
    attestation res = VDict [item "error" (VStr "boom")].
Proof.
  pose (t0 := fst (time_time Demo.python Demo.start)).
  pose (now := fst (time_time Demo.python (Demo.mkWorld 1007 [] 0))).
  assert (P : run_prologue Demo.crashed "r1" Demo.start
              = (Ret (t0, false), Demo.mkWorld 1007 [] 0, []))
    by (vm_compute; reflexivity).
  assert (T : run_try Demo.crashed t0 false "r1" "get weather"
                (payload_or_empty None) [] (Demo.mkWorld 1007 [] 0)
              = (Raise Demo.boom, Demo.mkWorld 1007 [] 0,
                 [(AgentRun "get weather" [], Raise Demo.boom)]))
    by (vm_compute; reflexivity).
  assert (N : time_time (runtime Demo.crashed) (Demo.mkWorld 1007 [] 0)
              = (now, Demo.mkWorld 1014 [] 0))
    by (vm_compute; reflexivity).
  assert (S : store_outcome (storage Demo.crashed)
                (error_record "r1" Demo.boom (elapsed_ms t0 now)
                   "2024-10-06T14:30:22+00:00")
                (Demo.mkWorld 1014 [] 0)
              = (Ret VNone,
                 Demo.mkWorld 1014
                   [error_record "r1" Demo.boom (elapsed_ms t0 now)
                      "2024-10-06T14:30:22+00:00"] 1))
    by reflexivity.
  destruct (error_containment Demo.crashed "r1" "get weather" None []
              Demo.start) as [_ B].
  destruct (B _ _ _ _ _ _ _ _ _ _ _ _ _ P T N eq_refl S) as [_ C].
  destruct (C eq_refl) as (_ & _ & _ & D).
  destruct (D VNone _ _ eq_refl eq_refl) as [_ E].
  destruct (E VNone eq_refl)
    as (res & Hrun & _ & Hst & Hres & Htr & _ & _ & Hih & Hoh & Hatt).
  exists res. do 2 eexists. split; [exact Hrun|].
  repeat split; assumption.
Defined.

(** C4 as stated fails: with [keep_hashes] set, a run whose agent raises
    hands back a result without hashes. *)
Lemma error_result_has_no_hashes :
  keep_hashes (policy Demo.crashed) = true /\
  exists res w' evs,
    Demo.crashed_run = (Ret res, w', evs) /\
    input_hash res = None /\ output_hash res = None.
Proof. vm_compute. split; [reflexivity|]. do 3 eexists. repeat split. Qed.

Lemma hash_gating_witness :
  exists res,
    fst (fst Demo.scenario_run) = Ret res /\
    input_hash res
    = Some (Sha256.hexdigest "{'task': 'get weather', 'payload': {}}") /\
    output_hash res = Some (Sha256.hexdigest "ok") /\
    forall h, input_hash res = Some h \/ output_hash res = Some h ->
              is_sha256_hex h = true.
Proof.
  assert (R : exists res,
             run Demo.scenario "r1" "get weather" None [] Demo.start
             = (Ret res, snd (fst Demo.scenario_run), snd Demo.scenario_run)
             /\ status res = "success"%string)
    by (vm_compute; eexists; split; reflexivity).
  destruct R as (res & H & Hst).
  destruct (hash_gating Demo.scenario _ _ _ _ _ _ _ _ H) as [A _].
  destruct (A Hst) as (_ & _ & Hi & (v & Hv & Ho) & Hhex).
  assert (V : agent_response (snd Demo.scenario_run)
              = Some Demo.scenario_response) by (vm_compute; reflexivity).
  rewrite V in Hv. inversion Hv; subst v.
  exists res. split; [|split; [|split]].
  - change (fst (fst Demo.scenario_run))
      with (fst (fst (run Demo.scenario "r1" "get weather" None []
                          Demo.start))).
    rewrite H. reflexivity.
  - rewrite Hi. vm_compute. reflexivity.
  - rewrite Ho. vm_compute. reflexivity.
  - exact Hhex.
Defined.

(** C6 as stated fails: the run is successful and its result carries an
    attestation, but the one record persisted has no [attestation]
    field. *)
Lemma persisted_record_has_no_attestation :
  exists res w' evs record,
    Demo.attested_run = (Ret res, w', evs) /\
    status res = "success"%string /\
    attestation res <> VNone /\
    persisted evs = [record] /\
    field record "attestation" = None.
Proof.
  vm_compute. do 4 eexists.
  repeat split; try reflexivity. discriminate.
Qed.

Lemma outcome_record_witness :
  exists record,
    persisted (snd Demo.scenario_run) = [record] /\
    map fst (store_calls (snd Demo.scenario_run)) = [record] /\
    dict_keys record =
    map VStr ["request_id"; "status"; "input_hash"; "output_hash";
              "latency_ms"; "cost_cents"; "created_at"]%string /\
    field record "status" = Some (VStr "success") /\
    field record "cost_cents" = Some (VFloat (3 # 2)) /\
    field record "attestation" = None.
Proof.
  assert (R : exists res,
             run Demo.scenario "r1" "get weather" None [] Demo.start
             = (Ret res, snd (fst Demo.scenario_run), snd Demo.scenario_run)
             /\ status res = "success"%string
             /\ cost_cents res = VFloat (3 # 2))
    by (vm_compute; eexists; repeat split; reflexivity).
  destruct R as (res & H & Hst & Hc).
  destruct (outcome_record Demo.scenario _ _ _ _ _ _ _ _ H Hst)
    as (record & Hp & Hs & Hk & _ & Hstatus & _ & _ & _ & Hcost & _ & Hno).
  exists record. rewrite Hst in Hstatus. rewrite Hc in Hcost.
  repeat split; assumption.
Defined.



(** An object without [run] is never called, and the request is reported
    as failed. *)
Example agent_without_run :
  run (Demo.wrapper Demo.not_an_agent Demo.open_policy false)
      "r1" "get weather" None [] Demo.start
  = (Ret (error_result "r1"
            (mkExn ExcAttributeError
                   "Agent <class 'object'> has no run() method") 6),
     Demo.mkWorld 1014
       [error_record "r1"
          (mkExn ExcAttributeError
                 "Agent <class 'object'> has no run() method") 6
          "2024-10-06T14:30:22+00:00"] 1,
     [(StoreOutcome
         (error_record "r1"
            (mkExn ExcAttributeError
                   "Agent <class 'object'> has no run() method") 6
            "2024-10-06T14:30:22+00:00"), Ret VNone);
      (RecordRequest "error" 6 (VInt 0), Ret VNone)]).
Proof. vm_compute. reflexivity. Qed.

Lemma hash_before_redaction_witness :
  exists res,
    fst (fst Demo.leaky_run) = Ret res /\
    output_hash res = Some (Sha256.hexdigest "mail a@b.com") /\
    result res = VStr "mail [EMAIL_REDACTED]".
Proof.
  assert (R : exists res,
             run Demo.leaky "r1" "find the address" None [] Demo.start
             = (Ret res, snd (fst Demo.leaky_run), snd Demo.leaky_run)
             /\ status res = "success"%string)
    by (vm_compute; eexists; split; reflexivity).
  destruct R as (res & H & Hst).
  destruct (hash_before_redaction Demo.leaky _ _ _ _ _ _ _ _ H Hst eq_refl)
    as (v & Hv & Ho & Hr).
  assert (V : agent_response (snd Demo.leaky_run)
              = Some Demo.leaky_response) by (vm_compute; reflexivity).
  rewrite V in Hv. inversion Hv; subst v.
  exists res. split; [|split].
  - change (fst (fst Demo.leaky_run))
      with (fst (fst (run Demo.leaky "r1" "find the address" None []
                          Demo.start))).
    rewrite H. reflexivity.
  - rewrite Ho. vm_compute. reflexivity.
  - rewrite Hr. vm_compute. reflexivity.
Defined.

(** The digest handed back is that of the raw result, not of the redacted
    one. *)
Example hash_attests_raw_result :
  Sha256.hexdigest "mail a@b.com"
  = "4a50ec22af9e00d87fdd9d852e176f64caba87f91d111bfef6bdd89d387c12b1"%string
  /\ Sha256.hexdigest "mail a@b.com"
     <> Sha256.hexdigest "mail [EMAIL_REDACTED]".
Proof. vm_compute. split; [reflexivity | discriminate]. Qed.

(** C10 as stated fails: the agent returns, the storage backend is
    unreachable, and [run] returns nothing: the exception of the second
    write leaves it. *)
Lemma failed_report_escapes_run :
  exists w' evs r1 r2,
    Demo.offline_run = (Raise Demo.connection_refused, w', evs) /\
    agent_response evs = Some Demo.scenario_response /\
    store_calls evs = [(r1, Raise Demo.connection_refused);
                       (r2, Raise Demo.connection_refused)] /\
    field r1 "status" = Some (VStr "success") /\
    field r2 "status" = Some (VStr "error").
Proof. vm_compute. do 4 eexists. repeat split. Qed.

Lemma failed_write_is_reported_witness :
  (exists v, agent_response (snd Demo.flaky_run) = Some v) /\
  exists latency created o2,
    tail (store_calls (snd Demo.flaky_run))
    = [(error_record "r1" Demo.connection_refused latency created, o2)] /\
    match o2 with
    | Raise e2 => fst (fst Demo.flaky_run) = Raise e2
    | Ret _ =>
        exists om : outcome value,
          fst (fst Demo.flaky_run)
          = match om with
            | Ret _ => Ret (error_result "r1" Demo.connection_refused latency)
            | Raise e3 => Raise e3
            end
    end.
Proof.
  assert (H : run Demo.flaky "r1" "get weather" None [] Demo.start
              = (fst (fst Demo.flaky_run), snd (fst Demo.flaky_run),
                 snd Demo.flaky_run))
    by (vm_compute; reflexivity).
  assert (S : exists r rest,
             store_calls (snd Demo.flaky_run)
             = (r, Raise Demo.connection_refused) :: rest /\
             field r "status" = Some (VStr "success"))
    by (vm_compute; do 2 eexists; split; reflexivity).
  destruct S as (r & rest & Hsc & Hst).
  destruct (failed_write_is_reported Demo.flaky _ _ _ _ _ _ _ _ _ _ _
              H Hsc Hst eq_refl)
    as (A & latency & created & o2 & Hrest & _ & _ & Ho2).
  split; [exact A|]. exists latency, created, o2.
  rewrite Hsc. simpl. split; [exact Hrest|].
  destruct o2 as [sv|e2].
  - destruct Ho2 as (om & _ & Ho). exists om. exact Ho.
  - exact (proj1 Ho2).
Defined.

(** On that run the second write is accepted and the error result comes
    back. *)
Example flaky_storage_run :
  fst (fst Demo.flaky_run)
  = Ret (error_result "r1" Demo.connection_refused 14) /\
  map snd (store_calls (snd Demo.flaky_run))
  = [Raise Demo.connection_refused; Ret VNone].
Proof. vm_compute. split; reflexivity. Qed.

(* ===================================================================== *)
(** ** Further properties of [BlackBoxWrapper] *)
(* ===================================================================== *)

Lemma dict_lookup_set_other (d : dict) (k k' : string) (v : value) :
  k' <> k -> dict_lookup (dict_set d k v) k' = dict_lookup d k'.
Proof.
  intros Hk. induction d as [|[key val] d IH]; simpl.
  - destruct (String.eqb k k') eqn:E; [|reflexivity].
    apply String.eqb_eq in E. congruence.
  - destruct key; simpl; try apply IH.
    destruct (String.eqb s k) eqn:E; simpl.
    + apply String.eqb_eq in E. subst s.
      destruct (String.eqb k k') eqn:E'; [|reflexivity].
      apply String.eqb_eq in E'. congruence.
    + destruct (String.eqb s k'); auto.
Qed.

Lemma keywords_In (d : dict) (kd : list (string * value)) k v :
  keywords d = Some kd -> In (VStr k, v) d -> In (k, v) kd.
Proof.
  intros H Hin. apply keywords_spec in H. subst d.
  apply in_map_iff in Hin as ([k' v'] & E & Hin). simpl in E.
  inversion E; subst. exact Hin.
Qed.

(** A keyword given by the payload and again by the extra parameters
    makes the call itself a [TypeError]. *)
Lemma call_keywords_clash (d : dict) (kw : list (string * value)) k v1 v2 :
  In (VStr k, v1) d -> In (k, v2) kw -> call_keywords d kw = None.
Proof.
  intros Hd Hk. unfold call_keywords.
  destruct (keywords d) as [kd|] eqn:E; [|reflexivity].
  assert (X : existsb (fun e => has_key kw (fst e)) kd = true).
  { apply existsb_exists. exists (k, v1). split.
    - eapply keywords_In; eauto.
    - unfold has_key. apply existsb_exists. exists (k, v2). split; auto.
      simpl. apply String.eqb_refl. }
  rewrite X. reflexivity.
Qed.

(** So does a payload key that is no string. *)
Lemma call_keywords_bad_key (d : dict) (kw : list (string * value)) key v :
  In (key, v) d -> (forall k, key <> VStr k) -> call_keywords d kw = None.
Proof.
  intros Hd Hk. unfold call_keywords.
  destruct (keywords d) as [kd|] eqn:E; [|reflexivity].
  apply keywords_spec in E. subst d.
  apply in_map_iff in Hd as ([k' v'] & E & _). simpl in E.
  inversion E; subst. destruct (Hk k' eq_refl).
Qed.

(** The rounding keeps the sign, and so does the truncation. *)
Lemma round_half_even_nonneg (n d : Z) :
  0 <= n -> 0 < d -> 0 <= Float64.round_half_even n d.
Proof.
  intros Hn Hd. unfold Float64.round_half_even.
  assert (Q : 0 <= n / d) by (apply Z.div_pos; lia).
  destruct (2 * (n mod d) ?= d); [destruct (Z.even (n / d))| |]; lia.
Qed.

Lemma significand_nonneg (a d e : Z) :
  0 <= a -> 0 < d ->
  0 <= (if 0 <=? e then Float64.round_half_even a (d * 2 ^ e)
        else Float64.round_half_even (a * 2 ^ (- e)) d).
Proof.
  intros Ha Hd. destruct (0 <=? e) eqn:Ee.
  - apply Z.leb_le in Ee.
    assert (P : 0 < 2 ^ e) by (apply Z.pow_pos_nonneg; lia).
    apply round_half_even_nonneg; nia.
  - apply Z.leb_gt in Ee.
    assert (P : 0 < 2 ^ (- e)) by (apply Z.pow_pos_nonneg; lia).
    apply round_half_even_nonneg; nia.
Qed.

Lemma scaled_nonneg (m e : Z) :
  0 <= m ->
  (0 <= (if 0 <=? e then inject_Z (m * 2 ^ e)
         else m # Z.to_pos (2 ^ (- e))))%Q.
Proof.
  intros Hm. destruct (0 <=? e) eqn:Ee.
  - apply Z.leb_le in Ee.
    assert (P : 0 < 2 ^ e) by (apply Z.pow_pos_nonneg; lia).
    unfold Qle. cbn [Qnum Qden inject_Z]. nia.
  - unfold Qle. cbn [Qnum Qden]. lia.
Qed.

Lemma Qred_sign (q : Q) : (0 <= q)%Q -> (0 <= Qred q)%Q.
Proof.
  intros H. pose proof (Qred_correct q) as E.
  unfold Qeq, Qle in *. simpl in *. nia.
Qed.

Lemma round53_nonneg (x : Q) : (0 <= x)%Q -> (0 <= Float64.round53 x)%Q.
Proof.
  destruct x as [n d]. unfold Qle at 1. simpl. intros H.
  unfold Float64.round53. cbn [Qnum Qden].
  destruct (n =? 0) eqn:E0; [unfold Qle; simpl; lia|].
  apply Z.eqb_neq in E0.
  assert (Hn : 0 < n) by lia.
  replace (n <? 0) with false by (symmetry; apply Z.ltb_ge; lia).
  apply Qred_sign.
  rewrite Z.abs_eq by lia.
  set (e := Float64.ilog2 n (Z.pos d) - 52).
  apply scaled_nonneg, significand_nonneg; lia.
Qed.

Lemma round53_nonpos (x : Q) : (x <= 0)%Q -> (Float64.round53 x <= 0)%Q.
Proof.
  destruct x as [n d]. unfold Qle at 1. simpl. intros H.
  unfold Float64.round53. cbn [Qnum Qden].
  destruct (n =? 0) eqn:E0; [unfold Qle; simpl; lia|].
  apply Z.eqb_neq in E0.
  assert (Hn : n < 0) by lia.
  replace (n <? 0) with true by (symmetry; apply Z.ltb_lt; lia).
  set (e := Float64.ilog2 (Z.abs n) (Z.pos d) - 52).
  match goal with |- (Qred (- ?v) <= 0)%Q => assert (V : (0 <= v)%Q) end.
  { apply scaled_nonneg, significand_nonneg; lia. }
  match goal with |- (Qred ?q <= 0)%Q => pose proof (Qred_correct q) as E end.
  match type of V with (0 <= ?v)%Q => revert V E; generalize v end.
  intros v V E. unfold Qeq, Qle, Qopp in *. simpl in *. nia.
Qed.

Lemma int_of_Q_sign (x : Q) :
  ((0 <= x)%Q -> 0 <= int_of_Q x) /\ ((x <= 0)%Q -> int_of_Q x <= 0).
Proof.
  destruct x as [n d]. unfold int_of_Q, Qle. simpl.
  rewrite !Z.mul_1_r. split; intros H.
  - apply Z.quot_pos; lia.
  - rewrite <- (Z.opp_involutive n). rewrite Z.quot_opp_l by lia.
    assert (0 <= (- n) ÷ Z.pos d) by (apply Z.quot_pos; lia). lia.
Qed.

Lemma mul_1000_sign (x : Q) :
  ((0 <= x)%Q -> (0 <= x * 1000)%Q) /\ ((x <= 0)%Q -> (x * 1000 <= 0)%Q).
Proof.
  destruct x as [n d]. unfold Qle, Qmult. cbn [Qnum Qden].
  split; intros H; lia.
Qed.

Lemma sub_sign (start_time now : Q) :
  ((start_time <= now)%Q -> (0 <= now - start_time)%Q) /\
  ((now <= start_time)%Q -> (now - start_time <= 0)%Q).
Proof.
  destruct start_time as [sn sd], now as [nn nd].
  unfold Qle, Qminus, Qplus, Qopp. cbn [Qnum Qden].
  split; intros H; lia.
Qed.

(** Case analysis down to the calls themselves: which calls the agent's
    invocation and the attestation step made. *)
Ltac shapes :=
  repeat match goal with
    | H : invoke_agent _ _ _ _ _ = (_, _, _) |- _ =>
        apply invoke_agent_exit in H; inversion H; subst; clear H
    | H : make_attestation _ _ _ _ _ _ = (_, _, _) |- _ =>
        apply make_attestation_inv in H;
        destruct H as [(? & ? & ? & ?)|(? & ? & ? & ?)]; subst
    end.

(** What the attestation step handed over, and the cases that cannot be. *)
Ltac generated :=
  repeat match goal with
    | H : strips _ true = true |- _ =>
        unfold strips in H; rewrite andb_false_r in H; discriminate H
    | Hn : forall e0, Raise ?e = Raise e0 -> is_Exception e0 = false |- _ =>
        solve [specialize (Hn e eq_refl); simpl in Hn; discriminate Hn]
    | H : match ?og with Ret _ => _ | Raise _ => _ end |- _ =>
        destruct og
    | H : exists ts : string, _ = setitem _ _ _ |- _ => destruct H as [? H]
    | H : Ret _ = Raise _ |- _ => discriminate H
    | H : Raise _ = Ret _ |- _ => discriminate H
    | H : Ret _ = Ret _ |- _ => inversion H; clear H; subst
    | H : Raise _ = Raise _ |- _ => inversion H; clear H; subst
    | H : _ = setitem ?g _ _ |- _ =>
        destruct g; simpl in H; try discriminate H;
        inversion H; clear H; subst
    end.

(** Case analysis on the two tests of [run]. *)
Ltac flags self rid :=
  unfold break_glass_calls, strip_calls;
  try match goal with
    | |- context [strips self ?b] => destruct (strips self b) eqn:?
    end;
  destruct (is_glass self rid) eqn:?;
  generated.

Ltac absurd_class :=
  match goal with
  | Hn : forall e0, Raise ?e = Raise e0 -> _ e0 = false,
    He : _ ?e = true |- _ =>
      rewrite (Hn e eq_refl) in He; discriminate He
  end.

(** Reads a returned result off [H : o = Ret res], where [o] may still
    depend on how the last notification ended. *)
Ltac returned H :=
  repeat match type of H with
    | context [match ?om with Ret _ => _ | Raise _ => _ end] => destruct om
    end;
  inversion H; subst.

Section Calls.
Context {W : Type} (self : BlackBoxWrapper W).

(** The response [run] works with was returned by the agent's [run], on
    the task and either the keyword arguments of the call or none. *)
Lemma agent_response_origin rid task payload kw w o w' evs v :
  run self rid task payload kw w = (o, w', evs) ->
  agent_response evs = Some v ->
  exists f kws w0 w1,
    agent_run (agent self) = Some f /\ f task kws w0 = (Ret v, w1) /\
    (call_keywords (payload_or_empty payload) kw = Some kws \/ kws = []).
Proof.
  intros H Hv. revert Hv.
  exits H; shapes; flags self rid; simpl; intros Hv;
    try discriminate Hv; inversion Hv; subst; eauto 8.
Qed.

(** X1 (what reaches the storage).  Whatever the outcome of [run], the
    storage is written to at most twice, and every record handed to it is
    one of two: the success record of the request, with the keys
    [request_id], [status], [input_hash], [output_hash], [latency_ms],
    [cost_cents] and [created_at], whose cost is the cost of the agent's
    response as it is and whose hashes are the digests of the redacted
    input and of the parsed result (or [None]); or an error record of the
    request, with the keys [request_id], [status], [error], [latency_ms]
    and [created_at].  No record has a field for the result, the traces
    or the payload: of the agent's response, its cost and the digest of
    its result are all that is stored. *)
Theorem stored_records_shape rid task payload kw w o w' evs :
  run self rid task payload kw w = (o, w', evs) ->
  (length (store_calls evs) <= 2)%nat /\
  forall r ow, In (r, ow) (store_calls evs) ->
    (exists v latency created,
       agent_response evs = Some v /\
       r = success_record rid
             (input_hash_of self task (payload_or_empty payload))
             (output_hash_of self (parsed_result v))
             latency (parsed_cost v) created /\
       dict_keys r = success_keys) \/
    (exists e latency created,
       r = error_record rid e latency created /\
       dict_keys r = error_keys).
Proof.
  intros H.
  exits H; call_facts; read_calls;
    try match goal with
      | |- context [strips self ?b] => destruct (strips self b)
      end;
    destruct (is_glass self rid); simpl; (split; [lia|]);
    intros r ow Hin;
    repeat match goal with
      | Hi : _ \/ _ |- _ => destruct Hi as [Hi|Hi]
      | Hi : (_, _) = (_, _) |- _ => inversion Hi; subst; clear Hi
      | Hi : False |- _ => destruct Hi
      end;
    first [ left; do 3 eexists; split; [reflexivity|];
            split; reflexivity
          | right; do 3 eexists; split; reflexivity ].
Qed.

(** X2 (how often each collaborator is called).  In one [run] the
    break-glass counter, the trace-strip counter and the attestation
    generator are called at most once, the agent, the storage and the
    request counter at most twice. *)
Theorem call_bounds rid task payload kw w o w' evs :
  run self rid task payload kw w = (o, w', evs) ->
  (count_calls is_break_glass_call evs <= 1)%nat /\
  (count_calls is_agent_run evs <= 2)%nat /\
  (count_calls is_trace_strip evs <= 1)%nat /\
  (count_calls is_store_outcome evs <= 2)%nat /\
  (count_calls is_record_request evs <= 2)%nat /\
  (count_calls is_generate evs <= 1)%nat.
Proof.
  intros H. exits H; shapes; flags self rid; simpl; unfold count_calls; simpl;
    repeat split; lia.
Qed.

(** X3 (the order of the calls of a successful run).  A run that reports
    success has called, in this order: the break-glass counter if the
    request is under break-glass; the agent, once or twice; the
    trace-strip counter if the traces are stripped; the storage; the
    request counter; and the attestation generator if the policy asks for
    an attestation.  It has made no other call. *)
Theorem call_order_of_success rid task payload kw w res w' evs :
  run self rid task payload kw w = (Ret res, w', evs) ->
  status res = "success"%string ->
  exists n, (n = 1 \/ n = 2)%nat /\
    call_names evs =
    (if is_glass self rid then ["metrics.record_break_glass"%string] else [])
    ++ repeat "agent.run"%string n
    ++ (if strips self (is_glass self rid)
        then ["metrics.record_trace_strip"%string] else [])
    ++ ["storage.store_outcome"; "metrics.record_request"]%string
    ++ (if attests (policy self)
        then ["attestation_gen.generate"%string] else []).
Proof.
  intros H Hst. unfold attests.
  exits H; try discriminate Hst; shapes; flags self rid;
    repeat match goal with
      | Hf : _ || _ = _ |- _ => rewrite Hf; clear Hf
      end; unfold call_names; simpl;
    first [ exists 1%nat; split; [left; reflexivity|reflexivity]
          | exists 2%nat; split; [right; reflexivity|reflexivity] ].
Qed.

(** X4 (the metrics agree with the result).  Whenever [run] returns a
    result, its last notification to the request counter returned and
    carried the status, the latency and the cost of that very result.  It
    is the only one, except that a result of status [error] may follow an
    earlier notification of a success. *)
Theorem metrics_report_matches_result rid task payload kw w res w' evs :
  run self rid task payload kw w = (Ret res, w', evs) ->
  exists earlier mv,
    calls_of is_record_request evs =
    earlier ++ [(RecordRequest (status res) (latency_ms res) (cost_cents res),
                 Ret mv)] /\
    (earlier = [] \/
     status res = "error"%string /\
     exists latency cost o1,
       earlier = [(RecordRequest "success" latency cost, o1)]).
Proof.
  intros H. exits H; shapes; flags self rid; simpl;
    try (exists []; eexists; (split; [reflexivity|]); left; reflexivity);
    (eexists [_]; eexists; (split; [reflexivity|]); right;
     (split; [reflexivity|]); do 3 eexists; reflexivity).
Qed.

(** X5 (a success hides no failure).  In a run that reports success no
    call on a collaborator has raised, except possibly a first call of
    the agent that raised a [TypeError] and was repeated with the task
    alone. *)
Theorem success_swallows_nothing rid task payload kw w res w' evs :
  run self rid task payload kw w = (Ret res, w', evs) ->
  status res = "success"%string ->
  failures evs = [] \/
  exists kws e,
    failures evs = [(AgentRun task kws, Raise e)] /\
    is_TypeError e = true /\
    head (calls_of is_agent_run evs) = Some (AgentRun task kws, Raise e).
Proof.
  intros H Hst.
  exits H; try discriminate Hst; shapes; flags self rid; simpl;
    try (left; reflexivity);
    right; do 2 eexists; (split; [reflexivity|]);
    (split; [assumption|reflexivity]).
Qed.


(** X7 (an exception outside [Exception] from the agent).  When the last
    call of the agent raises an exception that is not of class
    [Exception] (a cancellation, a keyboard interrupt), it leaves [run]
    at once: nothing is written to the storage and no request is
    counted. *)
Theorem base_exception_propagates rid task payload kw w o w' evs c e :
  run self rid task payload kw w = (o, w', evs) ->
  last_call (calls_of is_agent_run evs) = Some (c, Raise e) ->
  is_Exception e = false ->
  o = Raise e /\
  last_call evs = Some (c, Raise e) /\
  store_calls evs = [] /\
  calls_of is_record_request evs = [].
Proof.
  intros H Hl He. revert Hl.
  exits H; shapes; flags self rid; simpl;
    intros Hl; inversion Hl; subst; try congruence;
    repeat split; reflexivity.
Qed.

(** X8 (a failing attestation generator).  When the attestation generator
    raises an exception of class [Exception], the success has already
    been written and counted: the storage has received a record of status
    [success] for the request, whose write returned, and then an error
    record for the same request; the request counter was first notified
    of a success; and the result [run] returns, if any, is the error
    result. *)
Theorem late_failure_is_recorded_twice rid task payload kw w o w' evs c e :
  run self rid task payload kw w = (o, w', evs) ->
  calls_of is_generate evs = [(c, Raise e)] ->
  is_Exception e = true ->
  exists r sv latency created o2,
    store_calls evs =
    [(r, Ret sv); (error_record rid e latency created, o2)] /\
    field r "request_id" = Some (VStr rid) /\
    field r "status" = Some (VStr "success") /\
    (exists l1 cost mv,
       head (calls_of is_record_request evs)
       = Some (RecordRequest "success" l1 cost, Ret mv)) /\
    forall res, o = Ret res -> res = error_result rid e latency.
Proof.
  intros H Hg He. revert Hg.
  exits H; shapes; flags self rid; simpl; intros Hg;
    inversion Hg; subst; try absurd_class;
    do 5 eexists; (split; [reflexivity|]); (split; [reflexivity|]);
    (split; [reflexivity|]); (split; [do 3 eexists; reflexivity|]);
    intros res Hres; returned Hres; reflexivity.
Qed.

(** X9 (the attestation is the generator's).  In a successful run, a
    policy that asks for no attestation leaves the generator uncalled and
    the attestation absent.  A policy that asks for one has the generator
    called exactly once, with the request id and the two hashes of the
    result, and the call returned; outside break-glass, what it returned
    is the attestation of the result, unchanged. *)
Theorem attestation_pass_through rid task payload kw w res w' evs :
  run self rid task payload kw w = (Ret res, w', evs) ->
  status res = "success"%string ->
  (attests (policy self) = false ->
   calls_of is_generate evs = [] /\ attestation res = VNone) /\
  (attests (policy self) = true ->
   exists g,
     calls_of is_generate evs
     = [(Generate rid (input_hash res) (output_hash res), Ret g)] /\
     (is_glass self rid = false -> attestation res = g)).
Proof.
  intros H Hst. unfold attests.
  exits H; try discriminate Hst; shapes; flags self rid; simpl;
    (split; [intros Hf|intros Hf]); try congruence; auto;
    eexists; (split; [reflexivity|]); intros Hng;
    first [reflexivity|discriminate Hng].
Qed.

(** X10 (the break-glass annotation).  In a successful run under
    break-glass with an attestation, the generator returned a mapping,
    and the attestation of the result is that mapping with [break_glass]
    set: every other field is the generator's. *)
Theorem break_glass_annotation_keeps_fields rid task payload kw w res w' evs :
  run self rid task payload kw w = (Ret res, w', evs) ->
  status res = "success"%string ->
  attests (policy self) = true ->
  is_glass self rid = true ->
  exists g ts,
    calls_of is_generate evs
    = [(Generate rid (input_hash res) (output_hash res), Ret (VDict g))] /\
    attestation res
    = VDict (dict_set g "break_glass" (break_glass_record ts)) /\
    forall k, k <> "break_glass"%string ->
      field (attestation res) k = dict_lookup g k.
Proof.
  intros H Hst Ha Hg. unfold attests in Ha.
  exits H; try discriminate Hst; shapes; flags self rid; simpl;
    try congruence;
    do 2 eexists; (split; [reflexivity|]); (split; [reflexivity|]);
    intros k Hk; apply dict_lookup_set_other; exact Hk.
Qed.

(** X11 (clashing keyword arguments).  When a key of the payload is also
    one of the extra parameters, or is no string, the agent (if it has a
    [run] method, and unless the break-glass notification has raised) is
    called exactly once, with the task alone: neither the payload nor the
    extra parameters reach it. *)
Theorem clashing_keywords_are_dropped rid task d kw w o w' evs f :
  run self rid task (Some d) kw w = (o, w', evs) ->
  agent_run (agent self) = Some f ->
  (exists k v1 v2, In (VStr k, v1) d /\ In (k, v2) kw) \/
  (exists key v, In (key, v) d /\ forall k, key <> VStr k) ->
  (exists e, evs = [(RecordBreakGlass, Raise e)]) \/
  exists oa, calls_of is_agent_run evs = [(AgentRun task [], oa)].
Proof.
  intros H Hf Hd.
  assert (Hp : payload_or_empty (Some d) = d).
  { destruct d; [|reflexivity].
    destruct Hd as [(? & ? & ? & [] & _)|(? & ? & [] & _)]. }
  assert (Hk : call_keywords (payload_or_empty (Some d)) kw = None).
  { rewrite Hp.
    destruct Hd as [(k & v1 & v2 & H1 & H2)|(key & v & H1 & H2)];
      eauto using call_keywords_clash, call_keywords_bad_key. }
  exits H; [left; eauto | right ..]; shapes; try congruence;
    flags self rid; simpl; eauto.
Qed.

(** X12 (which failure of the agent is reported).  A first call of the
    agent that raises anything but a [TypeError] is the only call; one
    that raises a [TypeError] is followed by exactly one more call, with
    the task alone (provided the keyword arguments could be passed at
    all).  When the last call of the agent raises an exception of class
    [Exception], a result [run] returns is the error result for that
    exception: after a retry, the [TypeError] of the first call is not
    reported. *)
Theorem agent_failure_report rid task payload kw w o w' evs :
  run self rid task payload kw w = (o, w', evs) ->
  (forall c e rest,
     calls_of is_agent_run evs = (c, Raise e) :: rest ->
     (is_TypeError e = false -> rest = []) /\
     (is_TypeError e = true ->
      call_keywords (payload_or_empty payload) kw <> None ->
      exists o2, rest = [(AgentRun task [], o2)])) /\
  (forall c e,
     last_call (calls_of is_agent_run evs) = Some (c, Raise e) ->
     is_Exception e = true ->
     forall res, o = Ret res -> res = error_result rid e (latency_ms res)).
Proof.
  intros H. split.
  - intros c e rest.
    exits H; shapes; flags self rid; simpl; intros Hc;
      inversion Hc; subst;
      (split; [intros Ht|intros Ht Hk]); try congruence; eauto;
      try absurd_class.
  - intros c e.
    exits H; shapes; flags self rid; simpl; intros Hc He res Hres;
      try discriminate Hres; inversion Hc; subst;
      returned Hres; try reflexivity; try absurd_class.
Qed.

(** X13 (a failing break-glass notification).  For a request under
    break-glass whose notification raises, whatever the class of the
    exception, [run] raises it at once: the agent is not called, nothing
    is stored and no request is counted. *)
Theorem break_glass_failure_stops_run rid task payload kw w e w1 :
  rid ∈ break_glass_request_ids (policy self) ->
  record_break_glass (metrics self) (snd (time_time (runtime self) w))
  = (Raise e, w1) ->
  run self rid task payload kw w = (Raise e, w1, [(RecordBreakGlass, Raise e)]).
Proof.
  intros Hg Hr. unfold run. unfold_goal_monad.
  destruct (time_time (runtime self) w) as [t0 w0]. simpl in Hr.
  rewrite bool_decide_eq_true_2 by exact Hg.
  rewrite Hr. reflexivity.
Qed.

(** X14 (what an error result comes with).  A result of status [error]
    reports an exception of class [Exception]; the last call of the run
    is the notification of the failed request, with the latency of the
    result and cost zero, and it returned; the last record persisted is
    the error record with that latency and the exception's description,
    preceded at most by a success record of a run whose agent had
    answered. *)
Theorem error_result_origin rid task payload kw w res w' evs :
  run self rid task payload kw w = (Ret res, w', evs) ->
  status res = "error"%string ->
  exists e created mv,
    is_Exception e = true /\
    res = error_result rid e (latency_ms res) /\
    last_call evs
    = Some (RecordRequest "error" (latency_ms res) (VInt 0), Ret mv) /\
    (persisted evs = [error_record rid e (latency_ms res) created] \/
     exists r,
       persisted evs = [r; error_record rid e (latency_ms res) created] /\
       field r "status" = Some (VStr "success") /\
       agent_response evs <> None).
Proof.
  intros H Hst.
  exits H; try discriminate Hst; shapes; flags self rid; simpl;
    do 3 eexists;
    (split;
     [|split; [reflexivity|];
       split; [reflexivity|];
       first [left; reflexivity
             |right; eexists; split; [reflexivity|];
              split; [reflexivity|discriminate]]]);
    first [assumption|reflexivity].
Qed.

End Calls.

(** X15 (the sign of the latency).  [int((now - start) * 1000)], computed
    in floating point, is never negative when the second reading of the
    clock is not before the first, and never positive when it is not
    after it. *)
Theorem elapsed_ms_sign (start_time now : Q) :
  ((start_time <= now)%Q -> 0 <= elapsed_ms start_time now) /\
  ((now <= start_time)%Q -> elapsed_ms start_time now <= 0).
Proof.
  unfold elapsed_ms, Float64.mul, Float64.sub. split; intros H.
  - apply int_of_Q_sign, round53_nonneg, mul_1000_sign, round53_nonneg,
      sub_sign, H.
  - apply int_of_Q_sign, round53_nonpos, mul_1000_sign, round53_nonpos,
      sub_sign, H.
Qed.

(** The two roundings show: nine milliseconds read as [0.0] and [0.009]
    are nine, seven milliseconds read as [1.0] and [1.007] are six. *)
Example elapsed_ms_rounds :
  elapsed_ms (as_seconds_double 0) (as_seconds_double 9000000) = 9 /\
  elapsed_ms (as_seconds_double 1000000000) (as_seconds_double 1007000000)
  = 6.
Proof. vm_compute. split; reflexivity. Qed.

(** X16 (the constructor's own failure).  Once the redactor, the trace
    filter and the metrics are built, [BlackBoxWrapper.__init__] raises
    for a [storage] that is a string other than ["memory"] and
    ["postgres"] (the comparison is exact), with the text ["Unknown
    storage backend: "] followed by that string.  Whatever else leaves the
    constructor was raised by one of the classes it instantiates: the
    redactor chosen, the trace filter, the default metrics, the storage
    named, or the attestation generator. *)
Theorem init_rejects_unknown_backend {W : Type}
        (E : effect W Redactor) (P : Policy -> effect W Redactor)
        (TF : Policy -> effect W unit) (MS PS : effect W (Storage W))
        (IM : effect W (Metrics W))
        (AG : Policy -> string -> effect W (AttestationGenerator W))
        (rt : Runtime W) (a : Agent W) (p : Policy) (st : storage_arg W)
        (m : metrics_arg W) (flag : bool) (w : W) :
  (forall name r w1 u w2 m' w3,
     st = StorageName name ->
     name <> "memory"%string -> name <> "postgres"%string ->
     (if flag then E else P p) w = (Ret r, w1) ->
     TF p w1 = (Ret u, w2) ->
     metrics_or IM m w2 = (Ret m', w3) ->
     __init__ E P TF MS PS IM AG rt a p st m flag w
     = (Raise (mkExn ExcOther ("Unknown storage backend: " ++ name)), w3))
  /\
  (forall e w',
     __init__ E P TF MS PS IM AG rt a p st m flag w = (Raise e, w') ->
     (exists name,
        st = StorageName name /\
        name <> "memory"%string /\ name <> "postgres"%string /\
        e = mkExn ExcOther ("Unknown storage backend: " ++ name)) \/
     (exists w0,
        (if flag then E else P p) w0 = (Raise e, w') \/
        TF p w0 = (Raise e, w') \/
        IM w0 = (Raise e, w') \/
        (st = StorageName "memory" /\ MS w0 = (Raise e, w')) \/
        (st = StorageName "postgres" /\ PS w0 = (Raise e, w')) \/
        AG p "fake_sha_for_demo"%string w0 = (Raise e, w'))).
Proof.
  unfold __init__, and_then. split.
  - intros name r w1 u w2 m' w3 -> H1 H2 Hr Ht Hm.
    rewrite Hr, Ht, Hm. unfold storage_of.
    apply String.eqb_neq in H1, H2. rewrite H1, H2. reflexivity.
  - intros e w' H.
    destruct ((if flag then E else P p) w) as [[r|e1] w1] eqn:Er.
    2:{ inversion H; subst. right. exists w. auto. }
    destruct (TF p w1) as [[u|e2] w2] eqn:Et.
    2:{ inversion H; subst. right. exists w1. auto. }
    destruct (metrics_or IM m w2) as [[m'|e3] w3] eqn:Em.
    2:{ inversion H; subst. right. exists w2. right. right. left.
        unfold metrics_or, value_of in Em.
        destruct m as [|m0 [|]]; try exact Em. discriminate Em. }
    destruct (storage_of MS PS st w3) as [[s|e4] w4] eqn:Es.
    2:{ inversion H; subst. unfold storage_of, value_of in Es.
        destruct st as [name|s]; [|discriminate Es].
        destruct (String.eqb name "memory") eqn:E1.
        - apply String.eqb_eq in E1. subst name.
          right. exists w3. auto 6.
        - destruct (String.eqb name "postgres") eqn:E2.
          + apply String.eqb_eq in E2. subst name.
            right. exists w3. auto 7.
          + inversion Es; subst. left. exists name.
            apply String.eqb_neq in E1, E2. auto. }
    destruct (AG p "fake_sha_for_demo"%string w4) as [[g|e5] w5] eqn:Eg.
    2:{ inversion H; subst. right. exists w4. auto 8. }
    discriminate H.
Qed.

(** X17 (which redactor a constructed wrapper applies to what).  For a
    wrapper built by [__init__], the result of a successful run is the
    parsed result of the agent's response passed through the enhanced
    redactor when [use_enhanced_pii] is set, and the parsed result itself
    when it is not: the basic redactor [PIIRedactor(policy)] is applied
    to the hashed input only, never to the result. *)
Theorem constructed_wrapper_redaction {W : Type}
        (E : effect W Redactor) (P : Policy -> effect W Redactor)
        (TF : Policy -> effect W unit) (MS PS : effect W (Storage W))
        (IM : effect W (Metrics W))
        (AG : Policy -> string -> effect W (AttestationGenerator W))
        (rt : Runtime W) (a : Agent W) (p : Policy) (st : storage_arg W)
        (m : metrics_arg W) (flag : bool) (w0 w1 : W)
        (self : BlackBoxWrapper W)
        rid task payload kw w res w' evs :
  __init__ E P TF MS PS IM AG rt a p st m flag w0 = (Ret self, w1) ->
  run self rid task payload kw w = (Ret res, w', evs) ->
  status res = "success"%string ->
  exists redactor wr v,
    (if flag then E else P p) w0 = (Ret redactor, wr) /\
    agent_response evs = Some v /\
    result res
    = (if flag then redactor (parsed_result v) else parsed_result v) /\
    input_hash res =
    (if keep_hashes p then
       Some (Sha256.hexdigest
               (py_str rt
                  (redactor
                     (VDict [item "task" (VStr task);
                             item "payload"
                               (VDict (payload_or_empty payload))]))))
     else None).
Proof.
  intros Hinit H Hst.
  destruct (run_success _ _ _ _ _ _ _ _ _ H Hst)
    as (v & latency & created & sv & att & Hv & -> & _).
  unfold __init__, and_then in Hinit.
  destruct ((if flag then E else P p) w0) as [[r|e1] wr] eqn:Er;
    [|discriminate Hinit].
  destruct (TF p wr) as [[u|e2] w2]; [|discriminate Hinit].
  destruct (metrics_or IM m w2) as [[m'|e3] w3]; [|discriminate Hinit].
  destruct (storage_of MS PS st w3) as [[s|e4] w4]; [|discriminate Hinit].
  destruct (AG p "fake_sha_for_demo"%string w4) as [[g|e5] w5];
    [|discriminate Hinit].
  unfold value_of in Hinit. inversion Hinit; subst self w5. clear Hinit.
  exists r, wr, v. split; [reflexivity|]. split; [exact Hv|].
  unfold success_result, visible_result, input_hash_of, _compute_hash. simpl.
  destruct flag; auto.
Qed.

Section Agents.
Context {W : Type} (self : BlackBoxWrapper W).

(** X18 ([DebugAgent] under the wrapper).  The agent of
    [test_trace_debug.py] files its steps under the key [trace], which
    the wrapper does not read: a successful run of a wrapper around it
    has no traces, whether or not [black_box] is set, and its result is
    ["test output"] (passed through the redactor when the enhanced
    redactor is in use) at cost [0.0]. *)
Theorem debug_agent_traces_are_lost rid task payload kw w res w' evs :
  agent self = Scripts.DebugAgent ->
  run self rid task payload kw w = (Ret res, w', evs) ->
  status res = "success"%string ->
  agent_response evs = Some Scripts.debug_response /\
  traces res = VNone /\
  result res = visible_result self (VStr "test output") /\
  cost_cents res = VFloat 0.
Proof.
  intros Ha H Hst.
  destruct (run_success _ _ _ _ _ _ _ _ _ H Hst)
    as (v & latency & created & sv & att & Hv & -> & _).
  destruct (agent_response_origin _ _ _ _ _ _ _ _ _ _ H Hv)
    as (f & kws & w0 & w1 & Hf & Hcall & _).
  rewrite Ha in Hf. simpl in Hf. inversion Hf; subst f. clear Hf.
  destruct (Scripts.rebinds_parameter kws); inversion Hcall; subst v.
  split; [exact Hv|]. unfold success_result. simpl.
  destruct (strips self _); auto.
Qed.

(** X19 ([WeatherAgent] under the wrapper).  When [black_box] is off or
    the request is under break-glass, a successful run of a wrapper
    around the agent of [demo/showcase.py] returns the agent's eight
    trace lines as they are, whichever redactor is in use: the line with
    the e-mail address and the line with the API key are among them.
    The city is the [city] keyword of the call, or ["Unknown"]; only the
    result goes through the redactor. *)
Theorem weather_traces_are_not_redacted now_isoformat format
        rid task payload kw w res w' evs :
  agent self = Scripts.WeatherAgent now_isoformat format ->
  run self rid task payload kw w = (Ret res, w', evs) ->
  status res = "success"%string ->
  black_box (policy self) = false \/
  rid ∈ break_glass_request_ids (policy self) ->
  exists stamp kws,
    let city := Scripts.kwargs_get kws "city" (VStr "Unknown") in
    (call_keywords (payload_or_empty payload) kw = Some kws \/ kws = []) /\
    traces res = VList (Scripts.weather_traces format stamp city) /\
    In (VStr "[DB] Retrieved email: user@example.com from profile")
       (Scripts.weather_traces format stamp city) /\
    In (VStr "[API] API Key: sk_live_abc123... (first 10 chars)")
       (Scripts.weather_traces format stamp city) /\
    result res = visible_result self (Scripts.weather_result city).
Proof.
  intros Ha H Hst Hoff.
  assert (Hs : strips self (is_glass self rid) = false).
  { unfold strips. destruct Hoff as [Hbb|Hg].
    - rewrite Hbb. reflexivity.
    - apply is_glass_true in Hg. rewrite Hg. apply andb_false_r. }
  destruct (run_success _ _ _ _ _ _ _ _ _ H Hst)
    as (v & latency & created & sv & att & Hv & -> & _).
  destruct (agent_response_origin _ _ _ _ _ _ _ _ _ _ H Hv)
    as (f & kws & w0 & w1 & Hf & Hcall & Hkws).
  rewrite Ha in Hf. simpl in Hf. inversion Hf; subst f. clear Hf.
  destruct (Scripts.rebinds_parameter kws); [discriminate Hcall|].
  destruct (now_isoformat w0) as [stamp w2].
  inversion Hcall; subst v.
  exists stamp, kws. cbv zeta. split; [exact Hkws|].
  unfold success_result. rewrite Hs. simpl. auto 10.
Qed.

End Agents.

(* ===================================================================== *)
(** ** The further properties on concrete runs *)
(* ===================================================================== *)

Lemma stored_records_shape_witness :
  (length (store_calls (snd Demo.flaky_run)) <= 2)%nat /\
  forall r ow, In (r, ow) (store_calls (snd Demo.flaky_run)) ->
    (exists v latency created,
       agent_response (snd Demo.flaky_run) = Some v /\
       r = success_record "r1"
             (input_hash_of Demo.flaky "get weather" (payload_or_empty None))
             (output_hash_of Demo.flaky (parsed_result v))
             latency (parsed_cost v) created /\
       dict_keys r = success_keys) \/
    (exists e latency created,
       r = error_record "r1" e latency created /\
       dict_keys r = error_keys).
Proof.
  assert (H : run Demo.flaky "r1" "get weather" None [] Demo.start
              = (fst (fst Demo.flaky_run), snd (fst Demo.flaky_run),
                 snd Demo.flaky_run))
    by (vm_compute; reflexivity).
  exact (stored_records_shape Demo.flaky _ _ _ _ _ _ _ _ H).
Defined.

Lemma call_bounds_witness :
  (count_calls is_break_glass_call (snd Demo.glass_run) <= 1)%nat /\
  (count_calls is_agent_run (snd Demo.glass_run) <= 2)%nat /\
  (count_calls is_trace_strip (snd Demo.glass_run) <= 1)%nat /\
  (count_calls is_store_outcome (snd Demo.glass_run) <= 2)%nat /\
  (count_calls is_record_request (snd Demo.glass_run) <= 2)%nat /\
  (count_calls is_generate (snd Demo.glass_run) <= 1)%nat.
Proof.
  assert (H : run Demo.glass "incident-7" "get weather"
                (Some [item "email" (VStr "a@b.com")])
                [("city"%string, VStr "Tokyo")] Demo.start
              = (fst (fst Demo.glass_run), snd (fst Demo.glass_run),
                 snd Demo.glass_run))
    by (vm_compute; reflexivity).
  exact (call_bounds Demo.glass _ _ _ _ _ _ _ _ H).
Defined.

Lemma call_order_of_success_witness :
  call_names (snd Demo.glass_run)
  = ["metrics.record_break_glass"; "agent.run"; "storage.store_outcome";
     "metrics.record_request"; "attestation_gen.generate"]%string.
Proof.
  assert (R : exists res,
             run Demo.glass "incident-7" "get weather"
               (Some [item "email" (VStr "a@b.com")])
               [("city"%string, VStr "Tokyo")] Demo.start
             = (Ret res, snd (fst Demo.glass_run), snd Demo.glass_run)
             /\ status res = "success"%string)
    by (vm_compute; eexists; split; reflexivity).
  destruct R as (res & H & Hst).
  destruct (call_order_of_success Demo.glass _ _ _ _ _ _ _ _ H Hst)
    as (n & Hn & E).
  assert (G : is_glass Demo.glass "incident-7" = true)
    by (vm_compute; reflexivity).
  assert (N : count_calls is_agent_run (snd Demo.glass_run) = 1%nat)
    by (vm_compute; reflexivity).
  rewrite E, G.
  assert (S : strips Demo.glass true = false) by reflexivity.
  rewrite S.
  assert (A : attests (policy Demo.glass) = true) by reflexivity.
  rewrite A.
  destruct Hn as [-> | ->]; [reflexivity|].
  exfalso. revert N.
  assert (C : count_calls is_agent_run (snd Demo.glass_run)
              = length (filter (String.eqb "agent.run")
                          (call_names (snd Demo.glass_run))))
    by (vm_compute; reflexivity).
  rewrite C, E, G, S, A. simpl. discriminate.
Defined.

Lemma metrics_report_matches_result_witness :
  exists res earlier mv,
    fst (fst unattested_run) = Ret res /\
    calls_of is_record_request (snd unattested_run) =
    earlier ++ [(RecordRequest (status res) (latency_ms res) (cost_cents res),
                 Ret mv)] /\
    (earlier = [] \/
     status res = "error"%string /\
     exists latency cost o1,
       earlier = [(RecordRequest "success" latency cost, o1)]).
Proof.
  assert (R : exists res,
             run unattested "r1" "get weather" None [] Demo.start
             = (Ret res, snd (fst unattested_run), snd unattested_run)
             /\ fst (fst unattested_run) = Ret res)
    by (vm_compute; eexists; split; reflexivity).
  destruct R as (res & H & E).
  destruct (metrics_report_matches_result unattested _ _ _ _ _ _ _ _ H)
    as (earlier & mv & X).
  exists res, earlier, mv. split; [exact E|exact X].
Defined.

Lemma success_swallows_nothing_witness :
  failures (snd Demo.picky_run) = [] \/
  exists kws e,
    failures (snd Demo.picky_run) = [(AgentRun "get weather" kws, Raise e)] /\
    is_TypeError e = true /\
    head (calls_of is_agent_run (snd Demo.picky_run))
    = Some (AgentRun "get weather" kws, Raise e).
Proof.
  assert (R : exists res,
             run Demo.picky "r1" "get weather"
               (Some [item "email" (VStr "a@b.com")])
               [("city"%string, VStr "Tokyo")] Demo.start
             = (Ret res, snd (fst Demo.picky_run), snd Demo.picky_run)
             /\ status res = "success"%string)
    by (vm_compute; eexists; split; reflexivity).
  destruct R as (res & H & Hst).
  exact (success_swallows_nothing Demo.picky _ _ _ _ _ _ _ _ H Hst).
Defined.


Lemma base_exception_propagates_witness :
  fst (fst cancelled_run) = Raise cancelled /\
  last_call (snd cancelled_run)
  = Some (AgentRun "get weather" [], Raise cancelled) /\
  store_calls (snd cancelled_run) = [] /\
  calls_of is_record_request (snd cancelled_run) = [].
Proof.
  assert (H : run (Demo.wrapper (Demo.failing cancelled) Demo.strict true)
                "r1" "get weather" None [] Demo.start
              = (fst (fst cancelled_run), snd (fst cancelled_run),
                 snd cancelled_run))
    by (vm_compute; reflexivity).
  assert (L : last_call (calls_of is_agent_run (snd cancelled_run))
              = Some (AgentRun "get weather" [], Raise cancelled))
    by (vm_compute; reflexivity).
  exact (base_exception_propagates _ _ _ _ _ _ _ _ _ _ _ H L eq_refl).
Defined.

Lemma late_failure_is_recorded_twice_witness :
  exists r sv latency created o2,
    store_calls (snd unattested_run) =
    [(r, Ret sv); (error_record "r1" Demo.boom latency created, o2)] /\
    field r "request_id" = Some (VStr "r1") /\
    field r "status" = Some (VStr "success") /\
    (exists l1 cost mv,
       head (calls_of is_record_request (snd unattested_run))
       = Some (RecordRequest "success" l1 cost, Ret mv)) /\
    forall res, fst (fst unattested_run) = Ret res ->
                res = error_result "r1" Demo.boom latency.
Proof.
  assert (H : run unattested "r1" "get weather" None [] Demo.start
              = (fst (fst unattested_run), snd (fst unattested_run),
                 snd unattested_run))
    by (vm_compute; reflexivity).
  assert (G : exists c, calls_of is_generate (snd unattested_run)
                        = [(c, Raise Demo.boom)])
    by (vm_compute; eexists; reflexivity).
  destruct G as (c & G).
  exact (late_failure_is_recorded_twice unattested _ _ _ _ _ _ _ _ _ _
           H G eq_refl).
Defined.

Lemma attestation_pass_through_witness :
  exists res g,
    fst (fst Demo.attested_run) = Ret res /\
    calls_of is_generate (snd Demo.attested_run)
    = [(Generate "r1" (input_hash res) (output_hash res), Ret g)] /\
    attestation res = g.
Proof.
  assert (R : exists res,
             run Demo.glass "r1" "get weather" None [] Demo.start
             = (Ret res, snd (fst Demo.attested_run), snd Demo.attested_run)
             /\ status res = "success"%string
             /\ fst (fst Demo.attested_run) = Ret res)
    by (vm_compute; eexists; repeat split; reflexivity).
  destruct R as (res & H & Hst & E).
  destruct (attestation_pass_through Demo.glass _ _ _ _ _ _ _ _ H Hst)
    as [_ A].
  destruct (A eq_refl) as (g & Hg & Ha).
  exists res, g. split; [exact E|]. split; [exact Hg|].
  apply Ha. vm_compute. reflexivity.
Defined.

Lemma break_glass_annotation_keeps_fields_witness :
  exists res g ts,
    fst (fst Demo.glass_run) = Ret res /\
    calls_of is_generate (snd Demo.glass_run)
    = [(Generate "incident-7" (input_hash res) (output_hash res),
        Ret (VDict g))] /\
    attestation res
    = VDict (dict_set g "break_glass" (break_glass_record ts)) /\
    forall k, k <> "break_glass"%string ->
      field (attestation res) k = dict_lookup g k.
Proof.
  assert (R : exists res,
             run Demo.glass "incident-7" "get weather"
               (Some [item "email" (VStr "a@b.com")])
               [("city"%string, VStr "Tokyo")] Demo.start
             = (Ret res, snd (fst Demo.glass_run), snd Demo.glass_run)
             /\ status res = "success"%string
             /\ fst (fst Demo.glass_run) = Ret res)
    by (vm_compute; eexists; repeat split; reflexivity).
  destruct R as (res & H & Hst & E).
  assert (A : attests (policy Demo.glass) = true) by reflexivity.
  assert (G : is_glass Demo.glass "incident-7" = true)
    by (vm_compute; reflexivity).
  destruct (break_glass_annotation_keeps_fields Demo.glass _ _ _ _ _ _ _ _
              H Hst A G) as (g & ts & X).
  exists res, g, ts. split; [exact E|exact X].
Defined.

Lemma clashing_keywords_are_dropped_witness :
  (exists e, snd clash_run = [(RecordBreakGlass, Raise e)]) \/
  exists oa,
    calls_of is_agent_run (snd clash_run) = [(AgentRun "get weather" [], oa)].
Proof.
  assert (H : run Demo.glass "r1" "get weather"
                (Some [item "city" (VStr "Osaka")])
                [("city"%string, VStr "Tokyo")] Demo.start
              = (fst (fst clash_run), snd (fst clash_run), snd clash_run))
    by (vm_compute; reflexivity).
  refine (clashing_keywords_are_dropped Demo.glass _ _ _ _ _ _ _ _ _
            H eq_refl _).
  left. exists "city"%string, (VStr "Osaka"), (VStr "Tokyo").
  split; left; reflexivity.
Defined.

Lemma agent_failure_report_witness :
  (forall c e rest,
     calls_of is_agent_run (snd Demo.crashed_run) = (c, Raise e) :: rest ->
     (is_TypeError e = false -> rest = []) /\
     (is_TypeError e = true ->
      call_keywords (payload_or_empty None) [] <> None ->
      exists o2, rest = [(AgentRun "get weather" [], o2)])) /\
  (forall c e,
     last_call (calls_of is_agent_run (snd Demo.crashed_run))
     = Some (c, Raise e) ->
     is_Exception e = true ->
     forall res, fst (fst Demo.crashed_run) = Ret res ->
                 res = error_result "r1" e (latency_ms res)).
Proof.
  assert (H : run Demo.crashed "r1" "get weather" None [] Demo.start
              = (fst (fst Demo.crashed_run), snd (fst Demo.crashed_run),
                 snd Demo.crashed_run))
    by (vm_compute; reflexivity).
  exact (agent_failure_report Demo.crashed _ _ _ _ _ _ _ _ H).
Defined.

Lemma break_glass_failure_stops_run_witness :
  run unrecorded "incident-7" "get weather" None [] Demo.start
  = (Raise (mkExn ExcOther "metrics backend down"),
     Demo.mkWorld 1007 [] 0,
     [(RecordBreakGlass, Raise (mkExn ExcOther "metrics backend down"))]).
Proof.
  apply break_glass_failure_stops_run.
  - apply is_glass_true. vm_compute. reflexivity.
  - vm_compute. reflexivity.
Defined.

Lemma error_result_origin_witness :
  exists res e created,
    fst (fst Demo.crashed_run) = Ret res /\
    is_Exception e = true /\
    res = error_result "r1" e (latency_ms res) /\
    persisted (snd Demo.crashed_run)
    = [error_record "r1" e (latency_ms res) created].
Proof.
  assert (R : exists res,
             run Demo.crashed "r1" "get weather" None [] Demo.start
             = (Ret res, snd (fst Demo.crashed_run), snd Demo.crashed_run)
             /\ status res = "error"%string
             /\ fst (fst Demo.crashed_run) = Ret res)
    by (vm_compute; eexists; repeat split; reflexivity).
  destruct R as (res & H & Hst & E).
  destruct (error_result_origin Demo.crashed _ _ _ _ _ _ _ _ H Hst)
    as (e & created & mv & He & Hres & _ & Hp).
  exists res, e, created.
  split; [exact E|]. split; [exact He|]. split; [exact Hres|].
  destruct Hp as [X|(r & X & _)]; [exact X|].
  exfalso. revert X. vm_compute. discriminate.
Defined.

Lemma elapsed_ms_sign_witness :
  0 <= elapsed_ms (as_seconds_double 1000000000)
                  (as_seconds_double 1007000000).
Proof.
  apply (proj1 (elapsed_ms_sign (as_seconds_double 1000000000)
                                (as_seconds_double 1007000000))).
  vm_compute. discriminate.
Defined.

Lemma init_rejects_unknown_backend_witness :
  misconstructed
  = (Raise (mkExn ExcOther "Unknown storage backend: Memory"), Demo.start).
Proof.
  unfold misconstructed.
  apply (proj1 (init_rejects_unknown_backend
                  (value_of Demo.enhanced) (fun _ => value_of (fun v => v))
                  (fun _ => value_of tt) (value_of Demo.memory_storage)
                  (value_of Demo.down_storage)
                  (value_of Demo.memory_metrics)
                  (fun _ _ => value_of Demo.generator)
                  Demo.python (Demo.answering Demo.leaky_response)
                  Demo.strict (StorageName "Memory") MetricsNone false
                  Demo.start)
           "Memory"%string (fun v => v) Demo.start tt Demo.start
           Demo.memory_metrics Demo.start eq_refl);
    first [discriminate | reflexivity].
Defined.

Lemma constructed_wrapper_redaction_witness :
  exists res,
    fst (fst (run (Demo.wrapper (Demo.answering Demo.leaky_response)
                                Demo.strict false)
                  "r1" "find the address" None [] Demo.start)) = Ret res /\
    result res = VStr "mail a@b.com".
Proof.
  assert (I : constructed
              = (Ret (Demo.wrapper (Demo.answering Demo.leaky_response)
                                   Demo.strict false), Demo.start))
    by reflexivity.
  assert (R : exists res w' evs,
             run (Demo.wrapper (Demo.answering Demo.leaky_response)
                               Demo.strict false)
                 "r1" "find the address" None [] Demo.start
             = (Ret res, w', evs)
             /\ status res = "success"%string
             /\ agent_response evs = Some Demo.leaky_response)
    by (vm_compute; do 3 eexists; repeat split; reflexivity).
  destruct R as (res & w' & evs & H & Hst & Hv).
  unfold constructed in I.
  destruct (constructed_wrapper_redaction _ _ _ _ _ _ _ _ _ _ _ _ _ _ _ _
              _ _ _ _ _ _ _ _ I H Hst)
    as (redactor & wr & v & _ & Hv' & Hres & _).
  rewrite Hv in Hv'. inversion Hv'; subst v.
  exists res. split; [rewrite H; reflexivity|exact Hres].
Defined.

Lemma debug_agent_traces_are_lost_witness :
  exists res,
    fst (fst (debug_run Demo.open_policy)) = Ret res /\
    agent_response (snd (debug_run Demo.open_policy))
    = Some Scripts.debug_response /\
    traces res = VNone /\
    result res = VStr "test output" /\
    cost_cents res = VFloat 0.
Proof.
  assert (R : exists res,
             run (Demo.wrapper Scripts.DebugAgent Demo.open_policy true)
                 "test" "test task" None [] Demo.start
             = (Ret res, snd (fst (debug_run Demo.open_policy)),
                snd (debug_run Demo.open_policy))
             /\ status res = "success"%string
             /\ fst (fst (debug_run Demo.open_policy)) = Ret res)
    by (vm_compute; eexists; repeat split; reflexivity).
  destruct R as (res & H & Hst & E).
  destruct (debug_agent_traces_are_lost
              (Demo.wrapper Scripts.DebugAgent Demo.open_policy true)
              _ _ _ _ _ _ _ _ eq_refl H Hst) as (A & B & C & D).
  exists res. repeat split; assumption.
Defined.

Lemma weather_traces_are_not_redacted_witness :
  exists res stamp,
    fst (fst (weather_run Demo.open_policy true)) = Ret res /\
    traces res
    = VList (Scripts.weather_traces Demo.str stamp (VStr "Tokyo")) /\
    In (VStr "[DB] Retrieved email: user@example.com from profile")
       (Scripts.weather_traces Demo.str stamp (VStr "Tokyo")).
Proof.
  assert (R : exists res,
             run (Demo.wrapper weather Demo.open_policy true)
                 "weather_1" "get weather" None
                 [("city"%string, VStr "Tokyo")] Demo.start
             = (Ret res, snd (fst (weather_run Demo.open_policy true)),
                snd (weather_run Demo.open_policy true))
             /\ status res = "success"%string
             /\ fst (fst (weather_run Demo.open_policy true)) = Ret res)
    by (vm_compute; eexists; repeat split; reflexivity).
  destruct R as (res & H & Hst & E).
  destruct (weather_traces_are_not_redacted
              (Demo.wrapper weather Demo.open_policy true)
              Demo.iso_clock Demo.str _ _ _ _ _ _ _ _ eq_refl H Hst
              (or_introl eq_refl))
    as (stamp & kws & Hk & Htr & Hmail & _).
  assert (K : kws = [("city"%string, VStr "Tokyo")]).
  { destruct Hk as [Hk| ->].
    - vm_compute in Hk. inversion Hk. reflexivity.
    - exfalso. revert Htr.
      assert (T : exists l, traces res = VList l /\
                            nth_error l 1
                            = Some (VStr "[API] Calling OpenWeatherMap for Tokyo")).
      { revert E. vm_compute. intros E. inversion E. eexists.
        split; reflexivity. }
      destruct T as (l & -> & Hl). intros Htr. inversion Htr; subst l.
      vm_compute in Hl. discriminate Hl. }
  subst kws. exists res, stamp. split; [exact E|]. split; assumption.
Defined.
